(** * Crop_Yield: the ETL script [scripts/etl.py]

    A shallow embedding of [clean_data] and [main] and the properties the
    specification states about them.

    Conventions of the model.
    - Text (column labels, cell text, paths, printed lines) is a [string] of
      ASCII characters; [str.lower], [str.replace] and [str.strip] are given
      the behaviour Python defines on that range. Outside it Python's
      [str.lower] follows Unicode and may change the number of characters of
      a text; nothing below is stated about the length of a lower-cased text.
    - A pandas frame is the ordered list of its labelled columns. A column
      carries its dtype: the numeric dtypes [int64], [float64] and [bool], and
      [object]. These are the dtypes [pd.read_csv] infers. In a [float64]
      column the missing entry is the float NaN; in an [object] column it is
      the object NaN or [None].
    - pandas is given the semantics of the 1.x and 2.x series, where
      [astype(str)] applies Python's [str] to every element of an [object]
      column, the missing ones included.
    - Frames are Python objects: they live in a heap and are named by
      reference, so that assignment through [df] in [clean_data] is visible
      to every holder of the same reference.
    - The file system, the SQLite file, the connection and standard output
      make up the rest of the state [main] runs in. A CSV file is given by
      the frame [pd.read_csv] parses from it, a table by the frame written to
      it; paths are joined as [os.path.join] does on POSIX. The failures of
      the database (opening it, writing a table) are chosen by the
      environment of a run.
    - A file that is there is a CSV file [pd.read_csv] can open and parse.
      The other exceptions of [pd.read_csv] (an empty or malformed file, one
      that cannot be opened or decoded) are not in the model: [main] catches
      none of them, so such a run ends in the Extract step with that
      exception, before anything is cleaned, opened or written. *)

From Stdlib Require Import PrimFloat ZArith NArith Ascii String DecimalString.
From stdpp Require Import gmap strings list.

Local Open Scope string_scope.
Local Open Scope list_scope.

(** ** Python [str] operations *)

Module Text.

(** [c.isspace()] on the ASCII range: TAB, LF, VT, FF, CR, the four
    separators FS GS RS US, and the space. *)
Definition isspace (c : ascii) : bool :=
  let n := N_of_ascii c in
  ((9 <=? n)%N && (n <=? 13)%N) || ((28 <=? n)%N && (n <=? 32)%N).

Definition isupper (c : ascii) : bool :=
  let n := N_of_ascii c in (65 <=? n)%N && (n <=? 90)%N.

Definition lower_char (c : ascii) : ascii :=
  if isupper c then ascii_of_N (N_of_ascii c + 32) else c.

(** [s.lower()] on ASCII text: the letters A to Z, character by
    character. *)
Fixpoint lower (s : string) : string :=
  match s with
  | EmptyString => EmptyString
  | String c s' => String (lower_char c) (lower s')
  end.

(** [s.replace(old, new)] for one-character [old] and [new], the form the
    script uses. *)
Fixpoint replace (old new : ascii) (s : string) : string :=
  match s with
  | EmptyString => EmptyString
  | String c s' =>
      String (if Ascii.eqb c old then new else c) (replace old new s')
  end.

(** [s.lstrip()] *)
Fixpoint lstrip (s : string) : string :=
  match s with
  | EmptyString => EmptyString
  | String c s' => if isspace c then lstrip s' else s
  end.

(** [s.rstrip()] *)
Fixpoint rstrip (s : string) : string :=
  match s with
  | EmptyString => EmptyString
  | String c s' =>
      match rstrip s' with
      | EmptyString => if isspace c then EmptyString else String c EmptyString
      | r => String c r
      end
  end.

(** [s.strip()] *)
Definition strip (s : string) : string := rstrip (lstrip s).

(** First and last character, when there is one. *)
Definition first_char (s : string) : option ascii :=
  match s with
  | EmptyString => None
  | String c _ => Some c
  end.

Fixpoint last_char (s : string) : option ascii :=
  match s with
  | EmptyString => None
  | String c s' =>
      match last_char s' with
      | None => Some c
      | Some d => Some d
      end
  end.

Definition is_space_opt (o : option ascii) : bool :=
  match o with
  | Some c => isspace c
  | None => false
  end.

(** A string has whitespace at an edge when its first or its last
    character is a whitespace character. *)
Definition leading_space (s : string) : bool := is_space_opt (first_char s).
Definition trailing_space (s : string) : bool := is_space_opt (last_char s).

(** [sub in s] *)
Definition contains (sub s : string) : Prop :=
  exists pre post, s = pre +:+ sub +:+ post.

End Text.

(** ** Python values and exceptions *)

(** The exceptions the script can meet. [Unmodelled] marks an operation the
    model gives no result for; [clean_data] and [main] never raise it. *)
Inductive exn :=
| AttributeError (msg : string)
| KeyError (key : string)
| ValueError (msg : string)
| FileNotFoundError (path : string)
| OperationalError (msg : string)
| Unmodelled.

Inductive result (A : Type) :=
| Ok (a : A)
| Raise (e : exn).
Arguments Ok {A} a.
Arguments Raise {A} e.

(** A computation over a state [S]: it returns or raises, and in both cases
    leaves a state behind. *)
Definition M (S A : Type) : Type := S -> result A * S.

#[export] Instance M_ret {S} : MRet (M S) := fun A a s => (Ok a, s).

#[export] Instance M_bind {S} : MBind (M S) := fun A B f m s =>
  match m s with
  | (Ok a, s') => f a s'
  | (Raise e, s') => (Raise e, s')
  end.

Definition raise {S A} (e : exn) : M S A := fun s => (Raise e, s).

(** [for x in xs: body(x)] *)
Fixpoint for_each {S A} (xs : list A) (body : A -> M S unit) : M S unit :=
  match xs with
  | [] => mret tt
  | x :: xs' => body x ;; for_each xs' body
  end.

(** ** Columns and frames *)

(** The elements of an [object] column. *)
Inductive pyobj :=
| PyStr (s : string)
| PyNaN
| PyNone
| PyBool (b : bool)
| PyInt (z : Z).

(** [str(o)] *)
Definition py_str (o : pyobj) : string :=
  match o with
  | PyStr s => s
  | PyNaN => "nan"
  | PyNone => "None"
  | PyBool true => "True"
  | PyBool false => "False"
  | PyInt z => NilZero.string_of_int (Z.to_int z)
  end.

(** [pd.isna(o)] *)
Definition obj_isna (o : pyobj) : bool :=
  match o with
  | PyNaN | PyNone => true
  | _ => false
  end.

Inductive numeric_values :=
| Int64 (xs : list Z)
| Float64 (xs : list float)
| Bool (xs : list bool).

Inductive series :=
| Numeric (v : numeric_values)
| Object (xs : list pyobj).

(** A frame: its columns in order, each with its label. Labels may repeat. *)
Abbreviation DataFrame := (list (string * series)).

(** What [df[col]] evaluates to: a column when the label occurs once, a
    sub-frame when it occurs more than once. The script asks a sub-frame only
    for its dtype class and its [.str] accessor, so the sub-frame is kept
    abstract. *)
Inductive item :=
| ISeries (s : series)
| IFrame.

(** One entry of a column, whatever the dtype. *)
Inductive scalar :=
| SInt (z : Z)
| SFloat (f : float)
| SBool (b : bool)
| SObj (o : pyobj).

Definition values (s : series) : list scalar :=
  match s with
  | Numeric (Int64 xs) => SInt <$> xs
  | Numeric (Float64 xs) => SFloat <$> xs
  | Numeric (Bool xs) => SBool <$> xs
  | Object xs => SObj <$> xs
  end.

(** [pd.isna(x)]: the entry is missing. *)
Definition isna (x : scalar) : bool :=
  match x with
  | SFloat f => PrimFloat.is_nan f
  | SObj o => obj_isna o
  | _ => false
  end.

(** [pd.api.types.is_numeric_dtype(s)] on a column. *)
Definition numeric_dtype (s : series) : bool :=
  match s with
  | Numeric _ => true
  | Object _ => false
  end.

(** [pd.api.types.is_numeric_dtype(x)]: a sub-frame has no dtype and is
    answered [False]. *)
Definition is_numeric_dtype (x : item) : bool :=
  match x with
  | ISeries s => numeric_dtype s
  | IFrame => false
  end.

(** The element-wise steps of the column methods the script calls. *)
Definition fill_float (f : float) : float :=
  if PrimFloat.is_nan f then 0%float else f.

Definition fill_obj (value o : pyobj) : pyobj :=
  if obj_isna o then value else o.

Definition str_obj (o : pyobj) : pyobj := PyStr (py_str o).

Definition strip_obj (o : pyobj) : pyobj :=
  match o with
  | PyStr s => PyStr (Text.strip s)
  | _ => PyNaN
  end.

(** [x.fillna(0)] *)
Definition fillna_0 (x : item) : item :=
  match x with
  | ISeries (Numeric (Float64 xs)) => ISeries (Numeric (Float64 (fill_float <$> xs)))
  | ISeries (Numeric v) => ISeries (Numeric v)
  | ISeries (Object xs) => ISeries (Object (fill_obj (PyInt 0) <$> xs))
  | IFrame => IFrame
  end.

(** [x.fillna(value)] for a string [value]. A [float64] column would be
    recast to [object]; the script never fills one with a string. *)
Definition fillna_str {S} (value : string) (x : item) : M S item :=
  match x with
  | ISeries (Object xs) => mret (ISeries (Object (fill_obj (PyStr value) <$> xs)))
  | ISeries (Numeric (Float64 _)) => raise Unmodelled
  | ISeries (Numeric v) => mret (ISeries (Numeric v))
  | IFrame => mret IFrame
  end.

(** [x.astype(str)]: every element of an [object] column goes through
    [str]. The script never converts a numeric column. *)
Definition astype_str {S} (x : item) : M S item :=
  match x with
  | ISeries (Object xs) => mret (ISeries (Object (str_obj <$> xs)))
  | ISeries (Numeric _) => raise Unmodelled
  | IFrame => mret IFrame
  end.

(** [x.str.strip()]: strings are stripped, any other element gives NaN. A
    frame has no [.str]; neither has a numeric column. *)
Definition str_strip {S} (x : item) : M S item :=
  match x with
  | ISeries (Object xs) => mret (ISeries (Object (strip_obj <$> xs)))
  | ISeries (Numeric _) =>
      raise (AttributeError "Can only use .str accessor with string values!")
  | IFrame => raise (AttributeError "'DataFrame' object has no attribute 'str'")
  end.

(** [df.columns] of a frame value. *)
Definition columns (d : DataFrame) : list string := d.*1.

(** The frame with its labels replaced, as [df.columns = names] leaves it;
    pandas refuses a list of another length. *)
Definition with_columns (names : list string) (d : DataFrame) : result DataFrame :=
  if decide (length names = length d)
  then Ok (zip names (d.*2))
  else Raise (ValueError "Length mismatch").

(** [df[col]] on a frame value. *)
Definition frame_getitem (d : DataFrame) (col : string) : result item :=
  match filter (fun p => p.1 = col) d with
  | [] => Raise (KeyError col)
  | [(_, s)] => Ok (ISeries s)
  | _ => Ok IFrame
  end.

(** The frame after [df[col] = s]: an existing label keeps its place, a new
    one is added last. *)
Definition frame_setitem (d : DataFrame) (col : string) (s : series) : DataFrame :=
  if decide (col ∈ columns d)
  then (fun p => if decide (p.1 = col) then (col, s) else p) <$> d
  else d ++ [(col, s)].

(** ** The heap of frame objects *)

Abbreviation loc := nat (only parsing).
Abbreviation heap := (list DataFrame).

(** Dereference. The script holds no reference outside the heap. *)
Definition load (df : loc) : M heap DataFrame := fun h =>
  match h !! df with
  | Some d => (Ok d, h)
  | None => (Raise Unmodelled, h)
  end.

Definition store (df : loc) (d : DataFrame) : M heap unit := fun h =>
  (Ok tt, <[df := d]> h).

(** A new object. *)
Definition alloc (d : DataFrame) : M heap loc := fun h =>
  (Ok (length h), h ++ [d]).

Definition lift_result {S A} (r : result A) : M S A := fun s => (r, s).

(** [df.columns] *)
Definition get_columns (df : loc) : M heap (list string) :=
  d ← load df; mret (columns d).

(** [df.columns = names] *)
Definition set_columns (df : loc) (names : list string) : M heap unit :=
  d ← load df; d' ← lift_result (with_columns names d); store df d'.

(** [df[col]] *)
Definition getitem (df : loc) (col : string) : M heap item :=
  d ← load df; lift_result (frame_getitem d col).

(** [df[col] = x]. Assigning a sub-frame is not something the script does. *)
Definition setitem (df : loc) (col : string) (x : item) : M heap unit :=
  match x with
  | ISeries s => d ← load df; store df (frame_setitem d col s)
  | IFrame => raise Unmodelled
  end.

(** [df.copy()] *)
Definition copy (df : loc) : M heap loc :=
  d ← load df; alloc d.

(** ** [clean_data] *)

(** The body of the loop of [clean_data], for one label. *)
Definition clean_column (df : loc) (col : string) : M heap unit :=
  x ← getitem df col;
  if is_numeric_dtype x then
    y ← getitem df col;
    setitem df col (fillna_0 y)
  else
    y ← getitem df col;
    a ← astype_str y;
    s ← str_strip a;
    setitem df col s;;
    z ← getitem df col;
    f ← fillna_str "Unknown" z;
    setitem df col f.

Definition clean_data (df : loc) : M heap loc :=
  names ← get_columns df;
  set_columns df (Text.replace " " "_" <$> (Text.lower <$> names));;
  cols ← get_columns df;
  for_each cols (clean_column df);;
  mret df.

(** ** What [clean_data] computes, in closed form

    These are the functions the facts below relate [clean_data] to. *)

(** The new label of a column: [name.lower().replace(' ', '_')]. *)
Definition normalize_label (name : string) : string :=
  Text.replace " " "_" (Text.lower name).

(** One entry after the numeric or the text branch of the loop. *)
Definition clean_value (x : scalar) : scalar :=
  match x with
  | SFloat f => SFloat (fill_float f)
  | SObj o => SObj (fill_obj (PyStr "Unknown") (strip_obj (str_obj o)))
  | x => x
  end.

Definition cleaned_series (s : series) : series :=
  match s with
  | Numeric (Float64 xs) => Numeric (Float64 (fill_float <$> xs))
  | Numeric v => Numeric v
  | Object xs => Object ((fun o => fill_obj (PyStr "Unknown") (strip_obj (str_obj o))) <$> xs)
  end.

Definition cleaned_frame (d : DataFrame) : DataFrame :=
  (fun p => (normalize_label p.1, cleaned_series p.2)) <$> d.

(** The frame after the loop body has run for the label [c], and after it
    has run for each label in [cols]. *)
Definition clean_at (c : string) (d : DataFrame) : DataFrame :=
  (fun p => if decide (p.1 = c) then (c, cleaned_series p.2) else p) <$> d.

Definition clean_cols (cols : list string) (d : DataFrame) : DataFrame :=
  (fun p => if decide (p.1 ∈ cols) then (p.1, cleaned_series p.2) else p) <$> d.

(** The number of columns carrying label [col]. *)
Definition occurrences (col : string) (d : DataFrame) : nat :=
  length (filter (fun p => p.1 = col) d).

(** A frame [clean_data] goes through without an exception: no two labels
    collide once normalized. *)
Definition cleanable (d : DataFrame) : Prop :=
  NoDup (normalize_label <$> columns d).

(** ** The world [main] runs in *)

(** What the script does to the outside, in order. *)
Inductive event :=
| EvPrint (line : string)
| EvRead (path : string)
| EvConnect (path : string)
| EvWrite (table : string)
| EvCommit
| EvRollback
| EvClose.

Inductive conn_state :=
| NotConnected
| Connected
| Closed.

(** - [frames]: the heap of frame objects;
    - [files]: the CSV files on disk, by path, each as the frame
      [pd.read_csv] parses from it;
    - [database]: the SQLite file at [db_path], absent or holding its tables,
      each table as the frame last written to it;
    - [connection]: the state of the connection object of this run;
    - [trace]: the events so far, oldest first. *)
Record world := World {
  frames : heap;
  files : gmap string DataFrame;
  database : option (gmap string DataFrame);
  connection : conn_state;
  trace : list event
}.

(** How a write can fail: the error message, and what is left of the table
    being written (nothing, or some contents). *)
Record write_failure := WriteFailure {
  wf_message : string;
  wf_residue : option DataFrame
}.

(** The failures the environment injects in one run: opening the database,
    and writing each table. *)
Record faults := Faults {
  connect_fault : option string;
  write_fault : string -> option write_failure
}.

Definition no_faults : faults :=
  {| connect_fault := None; write_fault := fun _ => None |}.

Definition set_frames (h : heap) (w : world) : world :=
  {| frames := h; files := files w; database := database w;
     connection := connection w; trace := trace w |}.

Definition set_database (db : option (gmap string DataFrame)) (w : world) : world :=
  {| frames := frames w; files := files w; database := db;
     connection := connection w; trace := trace w |}.

Definition set_connection (c : conn_state) (w : world) : world :=
  {| frames := frames w; files := files w; database := database w;
     connection := c; trace := trace w |}.

Definition emit (e : event) : M world unit := fun w =>
  (Ok tt, {| frames := frames w; files := files w; database := database w;
             connection := connection w; trace := trace w ++ [e] |}).

(** A heap computation, run on the heap of the world. *)
Definition on_heap {A} (m : M heap A) : M world A := fun w =>
  let '(r, h) := m (frames w) in (r, set_frames h w).

(** [print(line)] *)
Definition print (line : string) : M world unit := emit (EvPrint line).

(** The lines printed so far. *)
Definition stdout (w : world) : list string :=
  omap (fun e => match e with EvPrint l => Some l | _ => None end) (trace w).

(** [str(e)] *)
Definition exn_str (e : exn) : string :=
  match e with
  | AttributeError msg => msg
  | KeyError key => "'" +:+ key +:+ "'"
  | ValueError msg => msg
  | FileNotFoundError path =>
      "[Errno 2] No such file or directory: '" +:+ path +:+ "'"
  | OperationalError msg => msg
  | Unmodelled => ""
  end.

(** [try: body / except <class> as e: handler(e)], the class given by the
    exceptions it [catches]. *)
Definition try_except {S A} (body : M S A) (catches : exn -> bool)
    (handler : exn -> M S A) : M S A := fun s =>
  match body s with
  | (Ok a, s') => (Ok a, s')
  | (Raise e, s') => if catches e then handler e s' else (Raise e, s')
  end.

Definition is_FileNotFoundError (e : exn) : bool :=
  match e with
  | FileNotFoundError _ => true
  | _ => false
  end.

(** Every exception of the model is an [Exception]. *)
Definition is_Exception (e : exn) : bool := true.

(** [os.path.join(a, b)] with the POSIX separator. *)
Definition path_join2 (a b : string) : string :=
  if Text.first_char b is Some "/"%char then b
  else if Text.last_char a is Some "/"%char then a +:+ b
  else if a is EmptyString then b
  else a +:+ "/" +:+ b.

(** [os.path.join(a, *parts)] *)
Definition os_path_join (a : string) (parts : list string) : string :=
  foldl path_join2 a parts.

(** The module-level paths, from the working directory [cwd] the script is
    started in. *)
Definition db_path (cwd : string) : string :=
  os_path_join cwd ["data"; "agriculture.db"].
Definition crop_data_path (cwd : string) : string :=
  os_path_join cwd ["data"; "csv data"; "raw"; "area_production_yield_data.csv"].
Definition normal_rainfall_path (cwd : string) : string :=
  os_path_join cwd ["data"; "csv data"; "raw"; "normal_rainfall_data.csv"].
Definition monthly_rainfall_path (cwd : string) : string :=
  os_path_join cwd ["data"; "csv data"; "raw"; "monthly_rainfall_data.csv"].

Definition list_files : M world (gmap string DataFrame) := fun w =>
  (Ok (files w), w).

(** The three inputs, in the order [main] reads them, and the three tables,
    in the order it writes them. *)
Definition input_paths (cwd : string) : list string :=
  [crop_data_path cwd; normal_rainfall_path cwd; monthly_rainfall_path cwd].

Definition table_names : list string :=
  ["crop_production"; "normal_rainfall"; "monthly_rainfall"].

(** [pd.read_csv(path)] on a path that holds a well-formed CSV file or no
    file at all: a new frame object, or [FileNotFoundError]. *)
Definition read_csv (path : string) : M world loc :=
  emit (EvRead path);;
  fs ← list_files;
  match fs !! path with
  | Some d => on_heap (alloc d)
  | None => raise (FileNotFoundError path)
  end.

(** [sq.connect(path)]: opens the database file and creates it when it is
    not there. *)
Definition connect (env : faults) (path : string) : M world unit :=
  match connect_fault env with
  | Some msg => raise (OperationalError msg)
  | None => fun w =>
      emit (EvConnect path)
        (set_connection Connected
           (set_database (Some (default ∅ (database w))) w))
  end.

(** [conn.commit()] and [conn.rollback()]. pandas commits at the end of each
    [to_sql], and rolls its own statement back when one fails, so neither
    finds a pending change. *)
Definition commit : M world unit := emit EvCommit.
Definition rollback : M world unit := emit EvRollback.

(** [with sq.connect(path) as conn: body]. Leaving the block commits, or
    rolls back and lets the exception through; the connection object is not
    closed by it. *)
Definition with_connect {A} (env : faults) (path : string) (body : M world A)
    : M world A :=
  connect env path;;
  a ← try_except body is_Exception (fun e => rollback;; raise e);
  commit;;
  mret a.

(** The effect of writing frame [d] to table [name] with
    [if_exists='replace']: the table is dropped if it exists and created
    again from the frame; a failure leaves what the environment says of that
    table, and the other tables as they were. *)
Definition replace_table (env : faults) (name : string) (d : DataFrame)
    : M world unit := fun w =>
  let tables := default ∅ (database w) in
  match write_fault env name with
  | Some f =>
      (Raise (OperationalError (wf_message f)),
       set_database
         (Some (match wf_residue f with
                | Some r => <[name := r]> tables
                | None => delete name tables
                end)) w)
  | None => (Ok tt, set_database (Some (<[name := d]> tables)) w)
  end.

(** [df.to_sql(name, conn, if_exists='replace', index=False)] *)
Definition to_sql (env : faults) (df : loc) (name : string) : M world unit :=
  emit (EvWrite name);;
  d ← on_heap (load df);
  replace_table env name d.

(** ** [main] *)

(** The Extract step: the three frames, or [None] after the diagnostic of
    the [except FileNotFoundError] clause. *)
Definition extract (cwd : string) : M world (option (loc * loc * loc)) :=
  try_except
    (crop_df ← read_csv (crop_data_path cwd);
     normal_rainfall_df ← read_csv (normal_rainfall_path cwd);
     monthly_rainfall_df ← read_csv (monthly_rainfall_path cwd);
     print "Successfully loaded CSVs. They smell... raw.";;
     mret (Some (crop_df, normal_rainfall_df, monthly_rainfall_df)))
    is_FileNotFoundError
    (fun e =>
       print ("🚨HEY! I couldn't find a file. Error: " +:+ exn_str e);;
       print "Did you rename the CSVs and put them in the 'data/' folder? Go check!";;
       mret None).

(** The Transform step. *)
Definition transform (crop_df normal_rainfall_df monthly_rainfall_df : loc)
    : M world (loc * loc * loc) :=
  crop_df_clean ← on_heap (c ← copy crop_df; clean_data c);
  normal_df_clean ← on_heap (c ← copy normal_rainfall_df; clean_data c);
  monthly_rainfall_clean ← on_heap (c ← copy monthly_rainfall_df; clean_data c);
  mret (crop_df_clean, normal_df_clean, monthly_rainfall_clean).

(** The Load step: [true] when the three tables were written, [false] after
    the diagnostic of the [except Exception] clause. *)
Definition load_tables (cwd : string) (env : faults)
    (crop_df_clean normal_df_clean monthly_rainfall_clean : loc) : M world bool :=
  try_except
    (with_connect env (db_path cwd)
       (to_sql env crop_df_clean "crop_production";;
        to_sql env normal_df_clean "normal_rainfall";;
        to_sql env monthly_rainfall_clean "monthly_rainfall";;
        print "Ding! Cake is ready. Data loaded into the database.");;
     mret true)
    is_Exception
    (fun e =>
       print ("🔥Whoops, something went wrong while baking. Error: " +:+ exn_str e);;
       mret false).

Definition main (cwd : string) (env : faults) : M world unit :=
  print "--- Starting The Great Data Bake-Off! ---";;
  print "Step 1: Reading the raw, lumpy ingredients (CSVs)...";;
  extracted ← extract cwd;
  match extracted with
  | None => mret tt
  | Some (crop_df, normal_rainfall_df, monthly_rainfall_df) =>
      print "Step 2: Cleaning, chopping, and mixing (Transforming Data)...";;
      cleaned ← transform crop_df normal_rainfall_df monthly_rainfall_df;
      let '(crop_df_clean, normal_df_clean, monthly_rainfall_clean) := cleaned in
      print "Data is now pretty clean.";;
      print "Step 3: Putting the cake in the oven (Loading to Database)...";;
      loaded ← load_tables cwd env crop_df_clean normal_df_clean monthly_rainfall_clean;
      if loaded : bool then print "--- ETL Pipeline Complete. Bon Appétit! ---"
      else mret tt
  end.

(** The state the next run of the script starts in: a new process, with the
    files and the database the previous run left. *)
Definition restart (w : world) : world :=
  {| frames := []; files := files w; database := database w;
     connection := NotConnected; trace := [] |}.

(** The events and the lines a computation adds, given the worlds before
    and after it. *)
Definition new_events (w w' : world) : list event :=
  drop (length (trace w)) (trace w').

(** The world with more frame objects and more events. *)
Definition extend (fr : list DataFrame) (evs : list event) (w : world) : world :=
  {| frames := frames w ++ fr; files := files w; database := database w;
     connection := connection w; trace := trace w ++ evs |}.

(** The two lines of the [except FileNotFoundError] clause, and the line of
    the [except Exception] clause. *)
Definition missing_file_lines (e : exn) : list event :=
  [EvPrint ("🚨HEY! I couldn't find a file. Error: " +:+ exn_str e);
   EvPrint "Did you rename the CSVs and put them in the 'data/' folder? Go check!"].

Definition load_error_line (e : exn) : event :=
  EvPrint ("🔥Whoops, something went wrong while baking. Error: " +:+ exn_str e).

(** What a run that gets as far as the Load step has done before it. *)
Definition start_lines : list event :=
  [EvPrint "--- Starting The Great Data Bake-Off! ---";
   EvPrint "Step 1: Reading the raw, lumpy ingredients (CSVs)..."].

Definition events_before_load (cwd : string) : list event :=
  start_lines ++
  [EvRead (crop_data_path cwd); EvRead (normal_rainfall_path cwd);
   EvRead (monthly_rainfall_path cwd);
   EvPrint "Successfully loaded CSVs. They smell... raw.";
   EvPrint "Step 2: Cleaning, chopping, and mixing (Transforming Data)...";
   EvPrint "Data is now pretty clean.";
   EvPrint "Step 3: Putting the cake in the oven (Loading to Database)..."].

(** ** Sample inputs *)

Definition sample_crop : DataFrame :=
  [("District Name", Object [PyStr "  Pune "; PyNaN; PyStr "Nashik"]);
   ("Crop", Object [PyStr "  Wheat "; PyStr "Rice"; PyNone]);
   ("Area Ha", Numeric (Float64 [1.5%float; nan; 3%float]));
   ("Year", Numeric (Int64 [2001%Z; 2002%Z; 2003%Z]))].

Definition sample_normal : DataFrame :=
  [("District", Object [PyStr "Pune"]);
   ("Normal Rain", Numeric (Float64 [nan]))].

Definition sample_monthly : DataFrame :=
  [("Month", Object [PyStr " Jan"; PyStr "Feb "]);
   ("Rain mm", Numeric (Int64 [12%Z; 0%Z]))].

Definition sample_cwd : string := "/home/user/Crop_Yield".

(** The three CSV files in place, no database yet. *)
Definition sample_world : world :=
  {| frames := [];
     files := <[crop_data_path sample_cwd := sample_crop]>
              (<[normal_rainfall_path sample_cwd := sample_normal]>
              (<[monthly_rainfall_path sample_cwd := sample_monthly]> ∅));
     database := None;
     connection := NotConnected;
     trace := [] |}.

(** The same, with the normal-rainfall file missing and a database left by
    an earlier run. *)
Definition sample_world_missing : world :=
  {| frames := [];
     files := <[crop_data_path sample_cwd := sample_crop]>
              (<[monthly_rainfall_path sample_cwd := sample_monthly]> ∅);
     database := Some (<["crop_production" := sample_monthly]> ∅);
     connection := NotConnected;
     trace := [] |}.

(** The three files in place and a database left by an earlier run. *)
Definition sample_world_old : world :=
  {| frames := [];
     files := files sample_world;
     database := Some (<["crop_production" := sample_monthly]>
                      (<["monthly_rainfall" := sample_normal]> ∅));
     connection := NotConnected;
     trace := [] |}.

(** The write of the second table fails. *)
Definition sample_faults : faults :=
  {| connect_fault := None;
     write_fault := fun name =>
       if decide (name = "normal_rainfall")
       then Some {| wf_message := "disk I/O error"; wf_residue := None |}
       else None |}.

(** A monthly file whose headers "Rain mm" and "rain_mm" are the same label
    once normalized. *)
Definition sample_clash : DataFrame :=
  [("Month", Object [PyStr "Jan"]);
   ("Rain mm", Numeric (Int64 [12%Z]));
   ("rain_mm", Numeric (Float64 [nan]))].

Definition sample_world_clash : world :=
  {| frames := [];
     files := <[crop_data_path sample_cwd := sample_crop]>
              (<[normal_rainfall_path sample_cwd := sample_normal]>
              (<[monthly_rainfall_path sample_cwd := sample_clash]> ∅));
     database := Some (<["crop_production" := sample_monthly]> ∅);
     connection := NotConnected;
     trace := [] |}.

(** The database cannot be opened. *)
Definition sample_faults_connect : faults :=
  {| connect_fault := Some "unable to open database file";
     write_fault := fun _ => None |}.

(** What a run has done when the Transform step begins. *)
Definition events_before_transform (cwd : string) : list event :=
  start_lines ++
  [EvRead (crop_data_path cwd); EvRead (normal_rainfall_path cwd);
   EvRead (monthly_rainfall_path cwd);
   EvPrint "Successfully loaded CSVs. They smell... raw.";
   EvPrint "Step 2: Cleaning, chopping, and mixing (Transforming Data)..."].

(** What the Load step adds to the trace when nothing fails, closing line
    of [main] included. *)
Definition events_of_load (cwd : string) : list event :=
  [EvConnect (db_path cwd); EvWrite "crop_production";
   EvWrite "normal_rainfall"; EvWrite "monthly_rainfall";
   EvPrint "Ding! Cake is ready. Data loaded into the database.";
   EvCommit;
   EvPrint "--- ETL Pipeline Complete. Bon Appétit! ---"].

(** ** Facts about the text operations *)

Section TextFacts.
Import Text.

Lemma lower_char_idem c : lower_char (lower_char c) = lower_char c.
Proof. destruct c as [[] [] [] [] [] [] [] []]; reflexivity. Qed.

Lemma lower_idem s : lower (lower s) = lower s.
Proof. induction s as [|c s IH]; simpl; [done|]. by rewrite lower_char_idem, IH. Qed.

Lemma replace_lower_char c :
  let r x := if Ascii.eqb x " " then "_"%char else x in
  r (lower_char (r (lower_char c))) = r (lower_char c).
Proof. destruct c as [[] [] [] [] [] [] [] []]; reflexivity. Qed.


Lemma last_char_rstrip s : trailing_space (rstrip s) = false.
Proof.
  unfold trailing_space. induction s as [|c s IH]; simpl; [done|].
  destruct (rstrip s) as [|d r] eqn:E.
  - destruct (isspace c) eqn:Ec; simpl; [done | by rewrite Ec].
  - simpl in *. destruct (last_char r); exact IH.
Qed.

Lemma first_char_lstrip s : leading_space (lstrip s) = false.
Proof.
  unfold leading_space. induction s as [|c s IH]; simpl; [done|].
  destruct (isspace c) eqn:Ec; [exact IH | simpl; exact Ec].
Qed.

Lemma rstrip_first_char s :
  leading_space s = false -> leading_space (rstrip s) = false.
Proof.
  unfold leading_space. destruct s as [|c s]; simpl; [done|].
  intros Hc. destruct (rstrip s); [rewrite Hc|]; simpl; done.
Qed.

Lemma strip_no_leading s : leading_space (strip s) = false.
Proof. apply rstrip_first_char, first_char_lstrip. Qed.

Lemma strip_no_trailing s : trailing_space (strip s) = false.
Proof. apply last_char_rstrip. Qed.

Lemma lstrip_fixed s : leading_space s = false -> lstrip s = s.
Proof. destruct s as [|c s]; simpl; [done|]. unfold leading_space; simpl. by intros ->. Qed.

Lemma rstrip_fixed s : trailing_space s = false -> rstrip s = s.
Proof.
  unfold trailing_space. induction s as [|c s IH]; simpl; [done|].
  destruct (last_char s) as [d|] eqn:E; simpl; intros H.
  - rewrite IH by done. destruct s; [done | done].
  - destruct s as [|e s]; simpl in *; [by rewrite H|].
    destruct (last_char s); done.
Qed.

Lemma strip_fixed s :
  leading_space s = false -> trailing_space s = false -> strip s = s.
Proof. intros H1 H2. unfold strip. rewrite lstrip_fixed by done. by apply rstrip_fixed. Qed.

Lemma strip_idem s : strip (strip s) = strip s.
Proof. apply strip_fixed; [apply strip_no_leading | apply strip_no_trailing]. Qed.

End TextFacts.

(** ** Facts about the monad *)

Section MonadFacts.
Context {S : Type}.

Lemma bind_ok {A B} (m : M S A) (f : A -> M S B) s a s' :
  m s = (Ok a, s') -> (m ≫= f) s = f a s'.
Proof. intros H. unfold mbind, M_bind. by rewrite H. Qed.

Lemma bind_raise {A B} (m : M S A) (f : A -> M S B) s e s' :
  m s = (Raise e, s') -> (m ≫= f) s = (Raise e, s').
Proof. intros H. unfold mbind, M_bind. by rewrite H. Qed.

Lemma bind_inv {A B} (m : M S A) (f : A -> M S B) s b s' :
  (m ≫= f) s = (Ok b, s') ->
  exists a s1, m s = (Ok a, s1) /\ f a s1 = (Ok b, s').
Proof.
  unfold mbind, M_bind. destruct (m s) as [[a|e] s1]; [eauto | done].
Qed.

End MonadFacts.

(** ** Facts about frames *)

Section FrameFacts.

Lemma occurrences_app c (d1 d2 : DataFrame) :
  occurrences c (d1 ++ d2) = occurrences c d1 + occurrences c d2.
Proof. unfold occurrences. by rewrite filter_app, length_app. Qed.

Lemma occurrences_pos c (d : DataFrame) : c ∈ columns d -> 1 <= occurrences c d.
Proof.
  unfold columns, occurrences. induction d as [|[n s] d IH]; simpl.
  - by intros ?%elem_of_nil.
  - intros [->|Hin]%elem_of_cons.
    + rewrite filter_cons_True by done. simpl. lia.
    + rewrite filter_cons. case_decide; simpl; [lia | auto].
Qed.

Lemma occurrences_zero c (d : DataFrame) : c ∉ columns d -> occurrences c d = 0.
Proof.
  unfold columns, occurrences. induction d as [|[n s] d IH]; simpl; [done|].
  intros Hn. rewrite not_elem_of_cons in Hn. destruct Hn as [Hne Hn].
  rewrite filter_cons_False by (simpl; congruence). auto.
Qed.

Lemma occurrences_NoDup c (d : DataFrame) :
  NoDup (columns d) -> c ∈ columns d -> occurrences c d = 1.
Proof.
  unfold columns. induction d as [|[n s] d IH]; simpl.
  - by intros _ ?%elem_of_nil.
  - intros [Hn Hd]%NoDup_cons Hin. unfold occurrences in *.
    rewrite filter_cons. case_decide as Hc; simpl in Hc.
    + subst n. simpl. f_equal. by apply (occurrences_zero c d).
    + apply elem_of_cons in Hin as [->|Hin]; [done | auto].
Qed.

Lemma not_NoDup_occurrences (d : DataFrame) :
  ¬ NoDup (columns d) -> exists c, c ∈ columns d /\ 2 <= occurrences c d.
Proof.
  unfold columns. induction d as [|[n s] d IH]; simpl.
  - intros H. destruct H. constructor.
  - intros H. destruct (decide (n ∈ d.*1)) as [Hin|Hnin].
    + exists n. split; [left|].
      change ((n, s) :: d) with ([(n, s)] ++ d). rewrite occurrences_app.
      pose proof (occurrences_pos n d Hin).
      unfold occurrences at 1. simpl. rewrite filter_cons_True by done. simpl. lia.
    + destruct IH as (c & Hc & Hocc).
      { intros Hd. apply H. by constructor. }
      exists c. split; [by right|].
      change ((n, s) :: d) with ([(n, s)] ++ d). rewrite occurrences_app. lia.
Qed.

(** [df[col]] when the label occurs once: the column, wherever it stands. *)
Lemma frame_getitem_unique (d : DataFrame) c :
  occurrences c d = 1 ->
  exists s, frame_getitem d c = Ok (ISeries s) /\
            filter (fun p => p.1 = c) d = [(c, s)].
Proof.
  unfold occurrences, frame_getitem. intros H.
  destruct (filter (fun p => p.1 = c) d) as [|[n s] [|]] eqn:E; simplify_eq/=.
  exists s. split; [done|]. f_equal.
  assert ((n, s) ∈ filter (fun p => p.1 = c) d) as Hin by (rewrite E; left).
  apply list_elem_of_filter in Hin as [Hn _]. simpl in Hn. by subst.
Qed.

Lemma frame_getitem_dup (d : DataFrame) c :
  2 <= occurrences c d -> frame_getitem d c = Ok IFrame.
Proof.
  unfold occurrences, frame_getitem. intros H.
  destruct (filter (fun p => p.1 = c) d) as [|[n s] [|]]; simpl in *; try lia; done.
Qed.

Lemma columns_setitem (d : DataFrame) c s :
  c ∈ columns d -> columns (frame_setitem d c s) = columns d.
Proof.
  intros Hin. unfold frame_setitem. rewrite decide_True by done.
  unfold columns. rewrite <- list_fmap_compose. apply list_fmap_ext.
  intros i [n x] _. simpl. case_decide; simpl in *; congruence.
Qed.

Lemma occurrences_columns c (d d' : DataFrame) :
  columns d = columns d' -> occurrences c d = occurrences c d'.
Proof.
  unfold occurrences, columns. revert d'.
  induction d as [|[n s] d IH]; intros [|[n' s'] d'] H; simplify_eq/=; [done|].
  rewrite !filter_cons. simpl. case_decide; simpl; auto.
Qed.

End FrameFacts.

(** ** Facts about [clean_data] *)

Section CleanFacts.
Implicit Types (h : heap) (d : DataFrame) (l : loc) (c : string).

Lemma getitem_eq h l d c :
  h !! l = Some d -> getitem l c h = (frame_getitem d c, h).
Proof. intros H. unfold getitem, load, mbind, M_bind, lift_result. by rewrite H. Qed.

Lemma setitem_eq h l d c s :
  h !! l = Some d ->
  setitem l c (ISeries s) h = (Ok tt, <[l := frame_setitem d c s]> h).
Proof. intros H. unfold setitem, load, store, mbind, M_bind. by rewrite H. Qed.

Lemma get_columns_eq h l d :
  h !! l = Some d -> get_columns l h = (Ok (columns d), h).
Proof. intros H. unfold get_columns, load, mbind, M_bind. by rewrite H. Qed.

Lemma lookup_insert_heap h l d d' :
  h !! l = Some d -> <[l := d']> h !! l = Some d'.
Proof. intros H. apply list_lookup_insert_eq. by eapply lookup_lt_Some. Qed.

Lemma columns_clean_at c d : columns (clean_at c d) = columns d.
Proof.
  unfold clean_at, columns. rewrite <- list_fmap_compose. apply list_fmap_ext.
  intros i [n x] _. simpl. case_decide; simpl in *; congruence.
Qed.

Lemma unique_column d c s p :
  filter (fun p => p.1 = c) d = [(c, s)] -> p ∈ d -> p.1 = c -> p = (c, s).
Proof.
  intros E Hin Hp.
  assert (p ∈ filter (fun p => p.1 = c) d) as H by (by apply list_elem_of_filter).
  rewrite E in H. by apply list_elem_of_singleton in H.
Qed.

Lemma frame_setitem_clean d c s :
  filter (fun p => p.1 = c) d = [(c, s)] ->
  frame_setitem d c (cleaned_series s) = clean_at c d.
Proof.
  intros E. unfold frame_setitem, clean_at.
  assert ((c, s) ∈ d) as Hin.
  { assert ((c, s) ∈ filter (fun p => p.1 = c) d) as H by (rewrite E; left).
    by apply list_elem_of_filter in H as [_ ?]. }
  rewrite decide_True by (apply list_elem_of_fmap; by exists (c, s)).
  apply list_fmap_ext. intros i p Hp. case_decide as Hc; [|done].
  by rewrite (unique_column d c s p E (list_elem_of_lookup_2 _ _ _ Hp) Hc).
Qed.

Lemma filter_fmap_set d c s' :
  filter (fun p => p.1 = c) ((fun p => if decide (p.1 = c) then (c, s') else p) <$> d)
  = (fun _ => (c, s')) <$> filter (fun p => p.1 = c) d.
Proof.
  induction d as [|[n x] d IH]; [done|].
  rewrite fmap_cons, !filter_cons. cbn [fst].
  destruct (decide (n = c)) as [->|Hn].
  - cbn [fst]. rewrite decide_True by done. rewrite fmap_cons. by f_equal.
  - cbn [fst]. by rewrite decide_False.
Qed.

Lemma filter_setitem d c s s' :
  filter (fun p => p.1 = c) d = [(c, s)] ->
  filter (fun p => p.1 = c) (frame_setitem d c s') = [(c, s')].
Proof.
  intros E. unfold frame_setitem.
  assert ((c, s) ∈ d) as Hin.
  { assert ((c, s) ∈ filter (fun p => p.1 = c) d) as H by (rewrite E; left).
    by apply list_elem_of_filter in H as [_ ?]. }
  rewrite decide_True by (apply list_elem_of_fmap; by exists (c, s)).
  by rewrite filter_fmap_set, E.
Qed.

(** The loop body on a label that occurs once: the column is replaced by its
    cleaned form, in place. *)
Lemma clean_column_unique h l d c :
  h !! l = Some d -> occurrences c d = 1 ->
  clean_column l c h = (Ok tt, <[l := clean_at c d]> h).
Proof.
  intros Hl Hocc. destruct (frame_getitem_unique d c Hocc) as (s & Hget & E).
  unfold clean_column.
  rewrite (bind_ok _ _ h (ISeries s) h) by (by rewrite (getitem_eq h l d), Hget).
  destruct s as [v|xs]; simpl;
    rewrite (bind_ok _ _ h (ISeries _) h) by (by rewrite (getitem_eq h l d), Hget).
  - rewrite <- (frame_setitem_clean d c (Numeric v) E).
    destruct v; simpl; by apply (setitem_eq h l d).
  - unfold astype_str, str_strip.
    rewrite (bind_ok _ _ h _ h) by done.
    rewrite (bind_ok _ _ h _ h) by done.
    rewrite (bind_ok _ _ h _ _ (setitem_eq h l d c _ Hl)).
    set (d1 := frame_setitem d c _).
    assert (<[l := d1]> h !! l = Some d1) as Hl1 by (by eapply lookup_insert_heap).
    assert (frame_getitem d1 c
            = Ok (ISeries (Object (strip_obj <$> (str_obj <$> xs))))) as Hget1.
    { unfold frame_getitem, d1. by rewrite (filter_setitem d c _ _ E). }
    erewrite bind_ok; [|by rewrite (getitem_eq _ l d1), Hget1].
    unfold fillna_str. erewrite bind_ok; [|done].
    rewrite (setitem_eq _ l d1) by done.
    rewrite list_insert_insert_eq. do 2 f_equal.
    rewrite <- (frame_setitem_clean d c (Object xs) E).
    assert (c ∈ columns d) as Hc.
    { apply list_elem_of_fmap. exists (c, Object xs). split; [done|].
      assert ((c, Object xs) ∈ filter (fun p => p.1 = c) d) as H by (rewrite E; left).
      by apply list_elem_of_filter in H as [_ ?]. }
    unfold frame_setitem at 1. rewrite decide_True by (unfold d1; by rewrite columns_setitem).
    unfold d1, frame_setitem. rewrite !decide_True by done.
    rewrite <- list_fmap_compose. apply list_fmap_ext. intros i p _. simpl.
    destruct (decide (p.1 = c)) as [Hp|Hp]; simpl.
    + rewrite decide_True by done. by rewrite <- !list_fmap_compose.
    + by rewrite decide_False.
Qed.

(** The loop body on a label that occurs more than once: [df[col]] is a
    frame, and asking it for [.str] raises. *)
Lemma clean_column_dup h l d c :
  h !! l = Some d -> 2 <= occurrences c d ->
  clean_column l c h
  = (Raise (AttributeError "'DataFrame' object has no attribute 'str'"), h).
Proof.
  intros Hl Hocc. unfold clean_column.
  rewrite (bind_ok _ _ h IFrame h) by (by rewrite (getitem_eq h l d), frame_getitem_dup).
  simpl.
  rewrite (bind_ok _ _ h IFrame h) by (by rewrite (getitem_eq h l d), frame_getitem_dup).
  done.
Qed.


Lemma clean_cols_cons c cols d :
  c ∉ cols -> clean_cols cols (clean_at c d) = clean_cols (c :: cols) d.
Proof.
  intros Hc. unfold clean_cols, clean_at. rewrite <- list_fmap_compose.
  apply list_fmap_ext. intros i p _. simpl.
  destruct (decide (p.1 = c)) as [Hp|Hp]; simpl.
  - rewrite decide_False by done. rewrite decide_True by (rewrite Hp; left). by rewrite Hp.
  - destruct (decide (p.1 ∈ cols)) as [Hin|Hin].
    + by rewrite decide_True by (by right).
    + rewrite decide_False; [done|]. by intros [?|?]%elem_of_cons.
Qed.

Lemma clean_cols_nil d : clean_cols [] d = d.
Proof.
  unfold clean_cols. rewrite <- (list_fmap_id d) at 2. apply list_fmap_ext.
  intros i p _. rewrite decide_False; [done|]. apply not_elem_of_nil.
Qed.

Lemma clean_cols_all d :
  clean_cols (columns d) d = (fun p => (p.1, cleaned_series p.2)) <$> d.
Proof.
  unfold clean_cols. apply list_fmap_ext. intros i p Hp.
  rewrite decide_True; [done|].
  apply list_elem_of_fmap. exists p. split; [done|]. by eapply list_elem_of_lookup_2.
Qed.

(** The loop over labels that each occur once runs to its end. *)
Lemma loop_ok l cols : forall h d,
  h !! l = Some d -> NoDup cols ->
  (forall c, c ∈ cols -> occurrences c d = 1) ->
  for_each cols (clean_column l) h = (Ok tt, <[l := clean_cols cols d]> h).
Proof.
  induction cols as [|c cols IH]; intros h d Hl Hnd Hocc; simpl.
  - rewrite clean_cols_nil. by rewrite list_insert_id.
  - apply NoDup_cons in Hnd as [Hc Hnd].
    rewrite (bind_ok _ _ h tt _ (clean_column_unique h l d c Hl (Hocc c ltac:(left)))).
    rewrite (IH _ (clean_at c d)); [| by eapply lookup_insert_heap | done |].
    + by rewrite list_insert_insert_eq, clean_cols_cons.
    + intros c' Hc'. rewrite (occurrences_columns c' _ d) by apply columns_clean_at.
      apply Hocc. by right.
Qed.

(** The loop stops with an exception at the first label that occurs more
    than once; the columns before it have been assigned. *)
Lemma loop_dup l cols : forall h d,
  h !! l = Some d ->
  (forall c, c ∈ cols -> 1 <= occurrences c d) ->
  (exists c, c ∈ cols /\ 2 <= occurrences c d) ->
  exists d',
    for_each cols (clean_column l) h
    = (Raise (AttributeError "'DataFrame' object has no attribute 'str'"),
       <[l := d']> h).
Proof.
  induction cols as [|c cols IH]; intros h d Hl Hpos (c' & Hin & Hdup); simpl.
  - by apply elem_of_nil in Hin.
  - destruct (decide (occurrences c d = 1)) as [Hone|Hmany].
    + rewrite (bind_ok _ _ h tt _ (clean_column_unique h l d c Hl Hone)).
      destruct (IH (<[l := clean_at c d]> h) (clean_at c d)) as [d' Hd'];
        [by eapply lookup_insert_heap | | |].
      * intros c'' Hc''. rewrite (occurrences_columns c'' _ d) by apply columns_clean_at.
        apply Hpos. by right.
      * exists c'. rewrite (occurrences_columns c' _ d) by apply columns_clean_at.
        split; [|done]. apply elem_of_cons in Hin as [->|Hin]; [lia | done].
      * exists d'. by rewrite Hd', list_insert_insert_eq.
    + exists d. rewrite list_insert_id by done.
      apply bind_raise. apply (clean_column_dup h l d c Hl).
      pose proof (Hpos c ltac:(left)). lia.
Qed.

(** The frame after [df.columns = ...]. *)
Lemma with_columns_normalized d :
  with_columns (Text.replace " " "_" <$> (Text.lower <$> columns d)) d
  = Ok ((fun p => (normalize_label p.1, p.2)) <$> d).
Proof.
  unfold with_columns, columns. rewrite !length_fmap, decide_True by done. f_equal.
  induction d as [|[n s] d IH]; simpl; [done|]. f_equal. exact IH.
Qed.

Lemma columns_renamed d :
  columns ((fun p => (normalize_label p.1, p.2)) <$> d) = normalize_label <$> columns d.
Proof. unfold columns. rewrite <- !list_fmap_compose. by apply list_fmap_ext. Qed.

Lemma set_columns_eq h l d :
  h !! l = Some d ->
  set_columns l (Text.replace " " "_" <$> (Text.lower <$> columns d)) h
  = (Ok tt, <[l := (fun p => (normalize_label p.1, p.2)) <$> d]> h).
Proof.
  intros Hl. unfold set_columns, load, lift_result, store, mbind, M_bind.
  by rewrite Hl, with_columns_normalized.
Qed.

(** [clean_data] on a frame whose normalized labels are distinct: it returns
    the reference it was given, and the frame behind it is now the cleaned
    frame. *)
Lemma clean_data_ok h l d :
  h !! l = Some d -> cleanable d ->
  clean_data l h = (Ok l, <[l := cleaned_frame d]> h).
Proof.
  intros Hl Hnd. unfold clean_data.
  set (d1 := (fun p => (normalize_label p.1, p.2)) <$> d).
  assert (<[l := d1]> h !! l = Some d1) as Hl1 by (by eapply lookup_insert_heap).
  rewrite (bind_ok _ _ h _ h (get_columns_eq h l d Hl)).
  rewrite (bind_ok _ _ h tt _ (set_columns_eq h l d Hl)). fold d1.
  rewrite (bind_ok _ _ _ _ _ (get_columns_eq _ l d1 Hl1)).
  assert (columns d1 = normalize_label <$> columns d) as Hcols by apply columns_renamed.
  erewrite bind_ok.
  2:{ apply (loop_ok l _ _ d1 Hl1); [by rewrite Hcols|].
      intros c Hc. apply occurrences_NoDup; [by rewrite Hcols | done]. }
  unfold mret, M_ret. f_equal. rewrite list_insert_insert_eq. f_equal.
  rewrite clean_cols_all. unfold d1, cleaned_frame.
  rewrite <- list_fmap_compose. by apply list_fmap_ext.
Qed.

(** When two normalized labels collide, [clean_data] raises; the frame it
    was given has been changed by then. *)
Lemma clean_data_dup h l d :
  h !! l = Some d -> ¬ cleanable d ->
  exists d',
    clean_data l h
    = (Raise (AttributeError "'DataFrame' object has no attribute 'str'"),
       <[l := d']> h).
Proof.
  intros Hl Hnd. unfold clean_data.
  set (d1 := (fun p => (normalize_label p.1, p.2)) <$> d).
  assert (<[l := d1]> h !! l = Some d1) as Hl1 by (by eapply lookup_insert_heap).
  rewrite (bind_ok _ _ h _ h (get_columns_eq h l d Hl)).
  rewrite (bind_ok _ _ h tt _ (set_columns_eq h l d Hl)). fold d1.
  rewrite (bind_ok _ _ _ _ _ (get_columns_eq _ l d1 Hl1)).
  assert (columns d1 = normalize_label <$> columns d) as Hcols by apply columns_renamed.
  destruct (loop_dup l (columns d1) _ d1 Hl1) as [d' Hd'].
  - intros c Hc. by apply occurrences_pos.
  - apply not_NoDup_occurrences. by rewrite Hcols.
  - exists d'. rewrite list_insert_insert_eq in Hd'. by apply bind_raise.
Qed.

Lemma clean_data_inv h l d r h' :
  h !! l = Some d -> clean_data l h = (Ok r, h') ->
  cleanable d /\ r = l /\ h' = <[l := cleaned_frame d]> h.
Proof.
  intros Hl Hrun. destruct (decide (cleanable d)) as [Hc|Hc].
  - rewrite (clean_data_ok h l d Hl Hc) in Hrun. by simplify_eq.
  - destruct (clean_data_dup h l d Hl Hc) as [d' E]. by rewrite E in Hrun.
Qed.


(** [clean_data] always comes to an end on a frame of the heap: it returns
    the reference, or raises the [AttributeError] of a repeated label. *)
Lemma clean_data_total h l d :
  h !! l = Some d ->
  exists d',
    clean_data l h = (Ok l, <[l := d']> h) \/
    clean_data l h
    = (Raise (AttributeError "'DataFrame' object has no attribute 'str'"),
       <[l := d']> h).
Proof.
  intros Hl. destruct (decide (cleanable d)) as [Hc|Hc].
  - exists (cleaned_frame d). left. by apply clean_data_ok.
  - destruct (clean_data_dup h l d Hl Hc) as [d' E]. exists d'. by right.
Qed.

(** [clean_data] on a reference outside the heap. *)
Lemma clean_data_dangling h l :
  h !! l = None -> clean_data l h = (Raise Unmodelled, h).
Proof.
  intros Hl. unfold clean_data, get_columns, load, mbind, M_bind. by rewrite Hl.
Qed.

(** Whatever [clean_data] does, it only touches the object it was given. *)
Lemma clean_data_frame h l res h' :
  clean_data l h = (res, h') ->
  length h' = length h /\ forall k, k ≠ l -> h' !! k = h !! k.
Proof.
  intros Hrun. destruct (h !! l) as [d|] eqn:Hl.
  - destruct (decide (cleanable d)) as [Hc|Hc].
    + rewrite (clean_data_ok h l d Hl Hc) in Hrun. simplify_eq.
      split; [apply length_insert|]. intros k Hk. by apply list_lookup_insert_ne.
    + destruct (clean_data_dup h l d Hl Hc) as [d' E]. rewrite E in Hrun. simplify_eq.
      split; [apply length_insert|]. intros k Hk. by apply list_lookup_insert_ne.
  - rewrite clean_data_dangling in Hrun by done. by simplify_eq.
Qed.

(** The closed forms. *)
Lemma columns_cleaned d : columns (cleaned_frame d) = normalize_label <$> columns d.
Proof.
  unfold columns, cleaned_frame. rewrite <- !list_fmap_compose.
  by apply list_fmap_ext.
Qed.

Lemma lookup_cleaned d i :
  cleaned_frame d !! i = (fun p => (normalize_label p.1, cleaned_series p.2)) <$> d !! i.
Proof. unfold cleaned_frame. apply list_lookup_fmap. Qed.

Lemma values_cleaned s : values (cleaned_series s) = clean_value <$> values s.
Proof.
  destruct s as [[xs|xs|xs]|xs]; simpl;
    (induction xs as [|x xs IH]; [done|]); cbn; f_equal; exact IH.
Qed.

Lemma numeric_dtype_cleaned s : numeric_dtype (cleaned_series s) = numeric_dtype s.
Proof. by destruct s as [[xs|xs|xs]|xs]. Qed.

Lemma fill_float_not_nan f : PrimFloat.is_nan (fill_float f) = false.
Proof. unfold fill_float. by destruct (PrimFloat.is_nan f) eqn:E. Qed.

Lemma fill_float_fixed f : PrimFloat.is_nan f = false -> fill_float f = f.
Proof. unfold fill_float. by intros ->. Qed.

Lemma clean_value_not_na x : isna (clean_value x) = false.
Proof. destruct x as [z|f|b|o]; simpl; [done| apply fill_float_not_nan |done|done]. Qed.

Lemma clean_value_idem x : clean_value (clean_value x) = clean_value x.
Proof.
  destruct x as [z|f|b|o]; simpl; [done| |done|].
  - by rewrite fill_float_fixed by apply fill_float_not_nan.
  - unfold fill_obj, strip_obj, str_obj. simpl. by rewrite strip_idem.
Qed.

Lemma cleaned_series_idem s : cleaned_series (cleaned_series s) = cleaned_series s.
Proof.
  destruct s as [[xs|xs|xs]|xs]; simpl; [done| |done|];
    rewrite <- list_fmap_compose; (erewrite list_fmap_ext; [reflexivity|]);
    intros i x _; simpl.
  - by rewrite fill_float_fixed by apply fill_float_not_nan.
  - unfold fill_obj, strip_obj, str_obj. simpl. by rewrite strip_idem.
Qed.

Lemma normalize_label_idem n : normalize_label (normalize_label n) = normalize_label n.
Proof.
  unfold normalize_label. induction n as [|c n IH]; simpl; [done|].
  f_equal; [apply replace_lower_char | exact IH].
Qed.

Lemma cleaned_frame_idem d : cleaned_frame (cleaned_frame d) = cleaned_frame d.
Proof.
  unfold cleaned_frame. rewrite <- list_fmap_compose. apply list_fmap_ext.
  intros i [n s] _. simpl. by rewrite normalize_label_idem, cleaned_series_idem.
Qed.

Lemma cleanable_cleaned d : cleanable d -> cleanable (cleaned_frame d).
Proof.
  unfold cleanable. rewrite columns_cleaned, <- list_fmap_compose.
  intros H. erewrite list_fmap_ext; [exact H|].
  intros i n _. simpl. apply normalize_label_idem.
Qed.

End CleanFacts.

(** ** Facts about [main] *)

Section MainFacts.
Implicit Types (w : world) (h : heap) (d : DataFrame).

Lemma copy_clean_ok h a d :
  h !! a = Some d -> cleanable d ->
  (c ← copy a; clean_data c) h = (Ok (length h), h ++ [cleaned_frame d]).
Proof.
  intros Ha Hc.
  assert (copy a h = (Ok (length h), h ++ [d])) as Hcopy.
  { unfold copy, load, alloc, mbind, M_bind. by rewrite Ha. }
  rewrite (bind_ok _ _ _ _ _ Hcopy).
  rewrite (clean_data_ok _ _ d); [| by rewrite lookup_app_r, Nat.sub_diag | done].
  f_equal. rewrite insert_app_r_alt, Nat.sub_diag by done. done.
Qed.

(** A copy is cleaned, never the frame it was taken from: whatever the
    outcome, the objects that were there are as they were. *)
Lemma copy_clean_frame h a res h' :
  (c ← copy a; clean_data c) h = (res, h') -> take (length h) h' = h.
Proof.
  unfold copy, load, alloc. intros Hrun.
  destruct (h !! a) as [d|] eqn:Ha.
  - unfold mbind at 1, M_bind at 1 in Hrun. unfold mbind at 1, M_bind at 1 in Hrun.
    rewrite Ha in Hrun.
    apply clean_data_frame in Hrun as [Hlen Hk].
    apply list_eq. intros k. destruct (decide (k < length h)) as [Hlt|Hge].
    + rewrite lookup_take_lt by done. rewrite Hk by lia. by apply lookup_app_l.
    + rewrite lookup_take_ge by lia. symmetry. apply lookup_ge_None. lia.
  - unfold mbind at 1, M_bind at 1 in Hrun. unfold mbind at 1, M_bind at 1 in Hrun.
    rewrite Ha in Hrun. simplify_eq. by rewrite firstn_all.
Qed.

Lemma extend_extend f1 e1 f2 e2 w :
  extend f2 e2 (extend f1 e1 w) = extend (f1 ++ f2) (e1 ++ e2) w.
Proof. unfold extend. simpl. by rewrite !app_assoc. Qed.

Lemma new_events_extend fr evs w : new_events w (extend fr evs w) = evs.
Proof. unfold new_events, extend. simpl. by rewrite drop_app_length. Qed.

Lemma emit_eq e w : emit e w = (Ok tt, extend [] [e] w).
Proof. unfold emit, extend. by rewrite app_nil_r. Qed.

Lemma print_eq line w : print line w = (Ok tt, extend [] [EvPrint line] w).
Proof. apply emit_eq. Qed.

Lemma read_csv_found w p d :
  files w !! p = Some d ->
  read_csv p w = (Ok (length (frames w)), extend [d] [EvRead p] w).
Proof.
  intros Hp. unfold read_csv, emit, list_files, on_heap, alloc, mbind, M_bind.
  simpl. by rewrite Hp.
Qed.

Lemma read_csv_missing w p :
  files w !! p = None ->
  read_csv p w = (Raise (FileNotFoundError p), extend [] [EvRead p] w).
Proof.
  intros Hp. unfold read_csv, emit, list_files, raise, mbind, M_bind, extend.
  simpl. by rewrite Hp, app_nil_r.
Qed.

(** Extract, the three files in place. *)
Lemma extract_ok cwd w d1 d2 d3 :
  files w !! crop_data_path cwd = Some d1 ->
  files w !! normal_rainfall_path cwd = Some d2 ->
  files w !! monthly_rainfall_path cwd = Some d3 ->
  extract cwd w
  = (Ok (Some (length (frames w), S (length (frames w)), S (S (length (frames w))))),
     extend [d1; d2; d3]
       [EvRead (crop_data_path cwd); EvRead (normal_rainfall_path cwd);
        EvRead (monthly_rainfall_path cwd);
        EvPrint "Successfully loaded CSVs. They smell... raw."] w).
Proof.
  intros H1 H2 H3. unfold extract, try_except.
  erewrite bind_ok; [| by apply read_csv_found].
  erewrite bind_ok; [| by apply read_csv_found].
  erewrite bind_ok; [| by apply read_csv_found].
  erewrite bind_ok; [| apply print_eq].
  unfold mret, M_ret. rewrite !extend_extend. simpl.
  rewrite !length_app. simpl.
  by rewrite Nat.add_1_r, (Nat.add_comm _ 2).
Qed.

(** Extract, one file at least missing: the files before the first missing
    one are read, then the diagnostic names the missing path. *)
Lemma extract_missing cwd w :
  (exists p, p ∈ input_paths cwd /\ files w !! p = None) ->
  exists raws reads p,
    extract cwd w
    = (Ok None,
       extend raws (reads ++ missing_file_lines (FileNotFoundError p)) w) /\
    p ∈ input_paths cwd /\ files w !! p = None /\
    Forall (fun d => exists q, files w !! q = Some d) raws /\
    Forall (fun e => exists q, e = EvRead q) reads.
Proof.
  intros Hmiss. unfold extract, try_except.
  destruct (files w !! crop_data_path cwd) as [d1|] eqn:H1.
  2:{ exists [], [EvRead (crop_data_path cwd)], (crop_data_path cwd).
      erewrite bind_raise; [| by apply read_csv_missing]. simpl.
      erewrite bind_ok; [| apply print_eq].
      erewrite bind_ok; [| apply print_eq].
      unfold mret, M_ret. rewrite !extend_extend. simpl.
      repeat split; [left | done | constructor | repeat constructor; eauto]. }
  erewrite bind_ok; [| by apply read_csv_found].
  destruct (files w !! normal_rainfall_path cwd) as [d2|] eqn:H2.
  2:{ exists [d1], [EvRead (crop_data_path cwd); EvRead (normal_rainfall_path cwd)],
        (normal_rainfall_path cwd).
      erewrite bind_raise; [| by apply read_csv_missing]. simpl.
      erewrite bind_ok; [| apply print_eq].
      erewrite bind_ok; [| apply print_eq].
      unfold mret, M_ret. rewrite !extend_extend. simpl.
      repeat split; [right; left | done | repeat constructor; eauto
                    | repeat constructor; eauto]. }
  erewrite bind_ok; [| by apply read_csv_found].
  destruct (files w !! monthly_rainfall_path cwd) as [d3|] eqn:H3.
  2:{ exists [d1; d2], [EvRead (crop_data_path cwd); EvRead (normal_rainfall_path cwd);
                        EvRead (monthly_rainfall_path cwd)],
        (monthly_rainfall_path cwd).
      erewrite bind_raise; [| by apply read_csv_missing]. simpl.
      erewrite bind_ok; [| apply print_eq].
      erewrite bind_ok; [| apply print_eq].
      unfold mret, M_ret. rewrite !extend_extend. simpl.
      repeat split; [right; right; left | done | repeat constructor; eauto
                    | repeat constructor; eauto]. }
  exfalso. destruct Hmiss as (p & Hp & Hnone). unfold input_paths in Hp.
  repeat (apply elem_of_cons in Hp as [->|Hp]; [congruence|]).
  by apply elem_of_nil in Hp.
Qed.


Lemma on_heap_eq {A} (m : M heap A) w r h' :
  m (frames w) = (r, h') -> on_heap m w = (r, set_frames h' w).
Proof. intros H. unfold on_heap. by rewrite H. Qed.

Lemma set_frames_app w fr : set_frames (frames w ++ fr) w = extend fr [] w.
Proof. unfold set_frames, extend. by rewrite app_nil_r. Qed.

Lemma copy_clean_dup h a d :
  h !! a = Some d -> ¬ cleanable d ->
  exists d',
    (c ← copy a; clean_data c) h
    = (Raise (AttributeError "'DataFrame' object has no attribute 'str'"), h ++ [d']).
Proof.
  intros Ha Hc.
  assert (copy a h = (Ok (length h), h ++ [d])) as Hcopy.
  { unfold copy, load, alloc, mbind, M_bind. by rewrite Ha. }
  destruct (clean_data_dup (h ++ [d]) (length h) d) as [d' E];
    [by rewrite lookup_app_r, Nat.sub_diag | done |].
  exists d'. rewrite (bind_ok _ _ _ _ _ Hcopy), E.
  f_equal. rewrite insert_app_r_alt, Nat.sub_diag by done. done.
Qed.

(** Transform, on three frames that can be cleaned: three new objects, the
    cleaned copies. *)
Lemma transform_ok w a b c d1 d2 d3 :
  frames w !! a = Some d1 -> frames w !! b = Some d2 -> frames w !! c = Some d3 ->
  cleanable d1 -> cleanable d2 -> cleanable d3 ->
  transform a b c w
  = (Ok (length (frames w), S (length (frames w)), S (S (length (frames w)))),
     extend [cleaned_frame d1; cleaned_frame d2; cleaned_frame d3] [] w).
Proof.
  intros Ha Hb Hc H1 H2 H3. unfold transform.
  erewrite bind_ok; [| apply on_heap_eq; by apply copy_clean_ok].
  rewrite set_frames_app.
  erewrite bind_ok;
    [| apply on_heap_eq; apply (copy_clean_ok _ b d2); [by apply lookup_app_l_Some | done]].
  rewrite set_frames_app.
  erewrite bind_ok;
    [| apply on_heap_eq; apply (copy_clean_ok _ c d3);
       [by do 2 apply lookup_app_l_Some | done]].
  rewrite set_frames_app, !extend_extend. unfold mret, M_ret. simpl.
  rewrite !length_app. simpl. by rewrite Nat.add_1_r, (Nat.add_comm _ 2).
Qed.

(** Transform, when one of the frames cannot be cleaned: the exception of
    [clean_data] leaves [main]; only the heap has changed. *)
Lemma transform_raises w a b c d1 d2 d3 :
  frames w !! a = Some d1 -> frames w !! b = Some d2 -> frames w !! c = Some d3 ->
  ¬ (cleanable d1 /\ cleanable d2 /\ cleanable d3) ->
  exists fr,
    transform a b c w
    = (Raise (AttributeError "'DataFrame' object has no attribute 'str'"),
       extend fr [] w).
Proof.
  intros Ha Hb Hc Hnot. unfold transform.
  destruct (decide (cleanable d1)) as [H1|H1].
  2:{ destruct (copy_clean_dup _ a d1 Ha H1) as [d' E]. exists [d'].
      erewrite bind_raise; [| apply on_heap_eq; exact E]. by rewrite set_frames_app. }
  erewrite bind_ok; [| apply on_heap_eq; by apply copy_clean_ok].
  rewrite set_frames_app.
  destruct (decide (cleanable d2)) as [H2|H2].
  2:{ destruct (copy_clean_dup (frames (extend [cleaned_frame d1] [] w)) b d2) as [d' E];
        [by apply lookup_app_l_Some | done |].
      exists [cleaned_frame d1; d'].
      erewrite bind_raise; [| apply on_heap_eq; exact E].
      by rewrite set_frames_app, extend_extend. }
  erewrite bind_ok;
    [| apply on_heap_eq; apply (copy_clean_ok _ b d2); [by apply lookup_app_l_Some | done]].
  rewrite set_frames_app.
  destruct (decide (cleanable d3)) as [H3|H3]; [tauto|].
  destruct (copy_clean_dup
              (frames (extend [cleaned_frame d2] [] (extend [cleaned_frame d1] [] w))) c d3)
    as [d' E]; [by do 2 apply lookup_app_l_Some | done |].
  exists [cleaned_frame d1; cleaned_frame d2; d'].
  erewrite bind_raise; [| apply on_heap_eq; exact E].
  by rewrite set_frames_app, !extend_extend.
Qed.


Lemma connect_ok env p w :
  connect_fault env = None ->
  connect env p w
  = (Ok tt,
     {| frames := frames w; files := files w;
        database := Some (default ∅ (database w));
        connection := Connected; trace := trace w ++ [EvConnect p] |}).
Proof. intros H. unfold connect. by rewrite H. Qed.

Lemma connect_fail env p w msg :
  connect_fault env = Some msg ->
  connect env p w = (Raise (OperationalError msg), w).
Proof. intros H. unfold connect. by rewrite H. Qed.

Lemma to_sql_ok env a name w d tables :
  frames w !! a = Some d -> database w = Some tables ->
  write_fault env name = None ->
  to_sql env a name w
  = (Ok tt,
     {| frames := frames w; files := files w;
        database := Some (<[name := d]> tables);
        connection := connection w; trace := trace w ++ [EvWrite name] |}).
Proof.
  intros Ha Hdb Hf.
  unfold to_sql, emit, on_heap, load, replace_table, mbind, M_bind. simpl.
  by rewrite Ha, Hf, Hdb.
Qed.

Lemma to_sql_fail env a name w d tables f :
  frames w !! a = Some d -> database w = Some tables ->
  write_fault env name = Some f ->
  to_sql env a name w
  = (Raise (OperationalError (wf_message f)),
     {| frames := frames w; files := files w;
        database := Some (match wf_residue f with
                          | Some r => <[name := r]> tables
                          | None => delete name tables
                          end);
        connection := connection w; trace := trace w ++ [EvWrite name] |}).
Proof.
  intros Ha Hdb Hf.
  unfold to_sql, emit, on_heap, load, replace_table, mbind, M_bind. simpl.
  by rewrite Ha, Hf, Hdb.
Qed.

(** Load, nothing failing: the three tables are replaced, in order, and the
    connection commits on leaving the block. *)
Lemma load_tables_ok cwd env a b c w c1 c2 c3 :
  frames w !! a = Some c1 -> frames w !! b = Some c2 -> frames w !! c = Some c3 ->
  connect_fault env = None ->
  (forall name, name ∈ table_names -> write_fault env name = None) ->
  load_tables cwd env a b c w
  = (Ok true,
     {| frames := frames w; files := files w;
        database := Some (<["monthly_rainfall" := c3]>
                         (<["normal_rainfall" := c2]>
                         (<["crop_production" := c1]> (default ∅ (database w)))));
        connection := Connected;
        trace := trace w ++
          [EvConnect (db_path cwd); EvWrite "crop_production";
           EvWrite "normal_rainfall"; EvWrite "monthly_rainfall";
           EvPrint "Ding! Cake is ready. Data loaded into the database.";
           EvCommit] |}).
Proof.
  intros Ha Hb Hc Hconn Hw. unfold load_tables, with_connect, try_except.
  erewrite bind_ok; [| erewrite bind_ok; [| by apply connect_ok]].
  2:{ erewrite bind_ok.
      2:{ erewrite bind_ok; [| eapply to_sql_ok; [exact Ha | done | apply Hw; left]].
          erewrite bind_ok; [| eapply to_sql_ok; [exact Hb | done | apply Hw; right; left]].
          erewrite bind_ok;
            [| eapply to_sql_ok; [exact Hc | done | apply Hw; right; right; left]].
          unfold print, emit. reflexivity. }
      unfold commit, emit. erewrite bind_ok; [| reflexivity]. reflexivity. }
  unfold mret, M_ret. simpl. by rewrite <- !app_assoc.
Qed.

(** Load, the database cannot be opened: nothing but the diagnostic. *)
Lemma load_tables_no_connection cwd env a b c w msg :
  connect_fault env = Some msg ->
  load_tables cwd env a b c w
  = (Ok false, extend [] [load_error_line (OperationalError msg)] w).
Proof.
  intros Hconn. unfold load_tables, with_connect, try_except.
  erewrite bind_raise; [| erewrite bind_raise; [| by apply connect_fail]; reflexivity].
  simpl. erewrite bind_ok; [| apply print_eq]. done.
Qed.


(** Load, the write of one table failing: the tables before it are replaced,
    the table itself is left as the failure leaves it, the tables after it
    are not written. *)
Lemma load_tables_write_failure cwd env a b c w c1 c2 c3 done name rest f :
  frames w !! a = Some c1 -> frames w !! b = Some c2 -> frames w !! c = Some c3 ->
  connect_fault env = None ->
  table_names = done ++ name :: rest ->
  (forall m, m ∈ done -> write_fault env m = None) ->
  write_fault env name = Some f ->
  exists tables,
    load_tables cwd env a b c w
    = (Ok false,
       {| frames := frames w; files := files w; database := Some tables;
          connection := Connected;
          trace := trace w ++ [EvConnect (db_path cwd)] ++
                   (EvWrite <$> done ++ [name]) ++
                   [EvRollback; load_error_line (OperationalError (wf_message f))] |}) /\
    (forall i m x, table_names !! i = Some m -> [c1; c2; c3] !! i = Some x ->
                   m ∈ done -> tables !! m = Some x) /\
    (forall m, m ∈ rest -> tables !! m = default ∅ (database w) !! m) /\
    tables !! name = wf_residue f.
Proof.
  intros Ha Hb Hc Hconn Hsplit Hdone Hf.
  unfold load_tables, with_connect, try_except, table_names in *.
  destruct done as [|m1 [|m2 [|m3 done]]]; simplify_eq/=.
  - eexists. split; [|split; [|split]].
    + erewrite bind_raise.
      2:{ erewrite bind_ok; [| by apply connect_ok].
          erewrite bind_raise; [reflexivity|].
          erewrite bind_raise; [reflexivity | by eapply to_sql_fail]. }
      simpl. unfold rollback, emit, raise, mbind, M_bind, print, emit, mret, M_ret.
      simpl. by rewrite <- !app_assoc.
    + intros i m x _ _ Hin. by apply elem_of_nil in Hin.
    + intros m Hm.
      assert ("crop_production" ≠ m) as Hne.
      { intros <-. repeat (apply elem_of_cons in Hm as [?|Hm]; [done|]).
        by apply elem_of_nil in Hm. }
      destruct (wf_residue f).
      * by rewrite lookup_insert_ne.
      * by rewrite lookup_delete_ne.
    + destruct (wf_residue f); [apply lookup_insert_eq | apply lookup_delete_eq].
  - eexists. split; [|split; [|split]].
    + erewrite bind_raise.
      2:{ erewrite bind_ok; [| by apply connect_ok].
          erewrite bind_raise; [reflexivity|].
          erewrite bind_ok; [| eapply to_sql_ok; [exact Ha | done | apply Hdone; left]].
          erewrite bind_raise; [reflexivity | by eapply to_sql_fail]. }
      simpl. unfold rollback, emit, raise, mbind, M_bind, print, emit, mret, M_ret.
      simpl. by rewrite <- !app_assoc.
    + intros i m x Hm Hx Hin. apply list_elem_of_singleton in Hin as ->.
      destruct i as [|[|[|i]]]; simplify_eq/=.
      destruct (wf_residue f).
      * rewrite lookup_insert_ne by done. apply lookup_insert_eq.
      * rewrite lookup_delete_ne by done. apply lookup_insert_eq.
    + intros m Hm. apply list_elem_of_singleton in Hm as ->.
      destruct (wf_residue f).
      * by rewrite !lookup_insert_ne.
      * by rewrite lookup_delete_ne, lookup_insert_ne.
    + destruct (wf_residue f); [apply lookup_insert_eq | apply lookup_delete_eq].
  - eexists. split; [|split; [|split]].
    + erewrite bind_raise.
      2:{ erewrite bind_ok; [| by apply connect_ok].
          erewrite bind_raise; [reflexivity|].
          erewrite bind_ok; [| eapply to_sql_ok; [exact Ha | done | apply Hdone; left]].
          erewrite bind_ok; [| eapply to_sql_ok; [exact Hb | done | apply Hdone; right; left]].
          erewrite bind_raise; [reflexivity | by eapply to_sql_fail]. }
      simpl. unfold rollback, emit, raise, mbind, M_bind, print, emit, mret, M_ret.
      simpl. by rewrite <- !app_assoc.
    + intros i m x Hm Hx Hin.
      destruct i as [|[|[|i]]]; simplify_eq/=.
      * destruct (wf_residue f).
        -- rewrite !lookup_insert_ne by done. apply lookup_insert_eq.
        -- rewrite lookup_delete_ne, lookup_insert_ne by done. apply lookup_insert_eq.
      * destruct (wf_residue f).
        -- rewrite !lookup_insert_ne by done. apply lookup_insert_eq.
        -- rewrite lookup_delete_ne by done. apply lookup_insert_eq.
      * repeat (apply elem_of_cons in Hin as [?|Hin]; [done|]).
        by apply elem_of_nil in Hin.
    + intros m Hm. by apply elem_of_nil in Hm.
    + destruct (wf_residue f); [apply lookup_insert_eq | apply lookup_delete_eq].
  - destruct done; simplify_eq/=.
Qed.

(** [main], one input missing. *)
Lemma main_missing cwd env w :
  (exists p, p ∈ input_paths cwd /\ files w !! p = None) ->
  exists raws reads p,
    main cwd env w
    = (Ok tt,
       extend raws (start_lines ++ reads ++ missing_file_lines (FileNotFoundError p)) w) /\
    p ∈ input_paths cwd /\ files w !! p = None /\
    Forall (fun d => exists q, files w !! q = Some d) raws /\
    Forall (fun e => exists q, e = EvRead q) reads.
Proof.
  intros Hmiss. unfold main.
  erewrite bind_ok; [| apply print_eq].
  erewrite bind_ok; [| apply print_eq].
  destruct (extract_missing cwd
              (extend [] [EvPrint "Step 1: Reading the raw, lumpy ingredients (CSVs)..."]
                 (extend [] [EvPrint "--- Starting The Great Data Bake-Off! ---"] w)) Hmiss)
    as (raws & reads & p & E & Hp & Hnone & Hraws & Hreads).
  exists raws, reads, p. erewrite bind_ok; [| exact E].
  unfold mret, M_ret. by rewrite !extend_extend.
Qed.

(** [main], the three inputs in place and cleanable: what is left to run is
    the Load step and the closing line. *)
Lemma main_reaches_load cwd env w d1 d2 d3 :
  files w !! crop_data_path cwd = Some d1 ->
  files w !! normal_rainfall_path cwd = Some d2 ->
  files w !! monthly_rainfall_path cwd = Some d3 ->
  cleanable d1 -> cleanable d2 -> cleanable d3 ->
  let n := length (frames w) in
  main cwd env w
  = (loaded ← load_tables cwd env (3 + n) (4 + n) (5 + n);
     if loaded : bool then print "--- ETL Pipeline Complete. Bon Appétit! ---"
     else mret tt)
      (extend [d1; d2; d3; cleaned_frame d1; cleaned_frame d2; cleaned_frame d3]
         (events_before_load cwd) w).
Proof.
  intros H1 H2 H3 Hc1 Hc2 Hc3 n. unfold main.
  erewrite bind_ok; [| apply print_eq].
  erewrite bind_ok; [| apply print_eq].
  erewrite bind_ok; [| apply extract_ok; [exact H1 | exact H2 | exact H3]].
  cbv beta iota.
  erewrite bind_ok; [| apply print_eq].
  rewrite !extend_extend.
  erewrite bind_ok.
  2:{ apply (transform_ok _ _ _ _ d1 d2 d3); [| | | done..];
        simpl; rewrite ?app_nil_r.
      - rewrite lookup_app_r by lia. by rewrite Nat.sub_diag.
      - rewrite lookup_app_r by lia. by replace (S _ - _) with 1 by lia.
      - rewrite lookup_app_r by lia. by replace (S _ - _) with 2 by lia. }
  cbv beta iota.
  erewrite bind_ok; [| apply print_eq].
  erewrite bind_ok; [| apply print_eq].
  rewrite !extend_extend. simpl. rewrite ?app_nil_r, !length_app. simpl.
  by replace (length (frames w) + 3) with (3 + n) by (unfold n; lia).
Qed.

(** [main], the three inputs in place but one of them not cleanable: the
    exception leaves [main] before the Load step. *)
Lemma main_unclean cwd env w d1 d2 d3 :
  files w !! crop_data_path cwd = Some d1 ->
  files w !! normal_rainfall_path cwd = Some d2 ->
  files w !! monthly_rainfall_path cwd = Some d3 ->
  ¬ (cleanable d1 /\ cleanable d2 /\ cleanable d3) ->
  exists fr evs,
    main cwd env w
    = (Raise (AttributeError "'DataFrame' object has no attribute 'str'"),
       extend fr evs w) /\
    Forall (fun e => (exists line, e = EvPrint line) \/ (exists q, e = EvRead q)) evs.
Proof.
  intros H1 H2 H3 Hnot. unfold main.
  erewrite bind_ok; [| apply print_eq].
  erewrite bind_ok; [| apply print_eq].
  erewrite bind_ok; [| apply extract_ok; [exact H1 | exact H2 | exact H3]].
  cbv beta iota.
  erewrite bind_ok; [| apply print_eq].
  rewrite !extend_extend.
  match goal with |- context [(transform ?a ?b ?c ≫= _) ?w1] =>
    assert (frames w1 !! a = Some d1) as Ha
      by (simpl; rewrite ?app_nil_r, lookup_app_r by lia; by rewrite Nat.sub_diag);
    assert (frames w1 !! b = Some d2) as Hb
      by (simpl; rewrite ?app_nil_r, lookup_app_r by lia;
          by replace (S _ - _) with 1 by lia);
    assert (frames w1 !! c = Some d3) as Hc
      by (simpl; rewrite ?app_nil_r, lookup_app_r by lia;
          by replace (S _ - _) with 2 by lia);
    destruct (transform_raises w1 a b c d1 d2 d3 Ha Hb Hc Hnot) as [fr E]
  end.
  erewrite bind_raise; [| exact E]. rewrite extend_extend.
  eexists _, _. split; [reflexivity|]. simpl.
  repeat (apply Forall_cons; split; [eauto|]). by apply Forall_nil.
Qed.


Lemma lookup_new_frame w (fr : list DataFrame) evs k :
  frames (extend fr evs w) !! (k + length (frames w)) = fr !! k.
Proof. simpl. rewrite lookup_app_r by lia. f_equal. lia. Qed.

(** [main], nothing failing. *)
Lemma main_success cwd env w d1 d2 d3 :
  files w !! crop_data_path cwd = Some d1 ->
  files w !! normal_rainfall_path cwd = Some d2 ->
  files w !! monthly_rainfall_path cwd = Some d3 ->
  cleanable d1 -> cleanable d2 -> cleanable d3 ->
  connect_fault env = None ->
  (forall name, name ∈ table_names -> write_fault env name = None) ->
  main cwd env w
  = (Ok tt,
     {| frames := frames w ++
          [d1; d2; d3; cleaned_frame d1; cleaned_frame d2; cleaned_frame d3];
        files := files w;
        database := Some (<["monthly_rainfall" := cleaned_frame d3]>
                         (<["normal_rainfall" := cleaned_frame d2]>
                         (<["crop_production" := cleaned_frame d1]>
                            (default ∅ (database w)))));
        connection := Connected;
        trace := trace w ++ events_before_load cwd ++
          [EvConnect (db_path cwd); EvWrite "crop_production";
           EvWrite "normal_rainfall"; EvWrite "monthly_rainfall";
           EvPrint "Ding! Cake is ready. Data loaded into the database.";
           EvCommit;
           EvPrint "--- ETL Pipeline Complete. Bon Appétit! ---"] |}).
Proof.
  intros H1 H2 H3 Hc1 Hc2 Hc3 Hconn Hw.
  rewrite (main_reaches_load cwd env w d1 d2 d3) by done.
  erewrite bind_ok.
  2:{ apply (load_tables_ok _ _ _ _ _ _ (cleaned_frame d1) (cleaned_frame d2)
               (cleaned_frame d3)); [by rewrite (lookup_new_frame _ _ _ 3)
               | by rewrite (lookup_new_frame _ _ _ 4) | by rewrite (lookup_new_frame _ _ _ 5)
               | done | done]. }
  unfold print, emit. simpl. by rewrite <- !app_assoc.
Qed.

(** [main], the database cannot be opened. *)
Lemma main_no_connection cwd env w d1 d2 d3 msg :
  files w !! crop_data_path cwd = Some d1 ->
  files w !! normal_rainfall_path cwd = Some d2 ->
  files w !! monthly_rainfall_path cwd = Some d3 ->
  cleanable d1 -> cleanable d2 -> cleanable d3 ->
  connect_fault env = Some msg ->
  main cwd env w
  = (Ok tt,
     extend [d1; d2; d3; cleaned_frame d1; cleaned_frame d2; cleaned_frame d3]
       (events_before_load cwd ++ [load_error_line (OperationalError msg)]) w).
Proof.
  intros H1 H2 H3 Hc1 Hc2 Hc3 Hconn.
  rewrite (main_reaches_load cwd env w d1 d2 d3) by done.
  erewrite bind_ok; [| by apply load_tables_no_connection].
  unfold mret, M_ret. by rewrite extend_extend.
Qed.

(** [main], the write of one table failing. *)
Lemma main_write_failure cwd env w d1 d2 d3 done name rest f :
  files w !! crop_data_path cwd = Some d1 ->
  files w !! normal_rainfall_path cwd = Some d2 ->
  files w !! monthly_rainfall_path cwd = Some d3 ->
  cleanable d1 -> cleanable d2 -> cleanable d3 ->
  connect_fault env = None ->
  table_names = done ++ name :: rest ->
  (forall m, m ∈ done -> write_fault env m = None) ->
  write_fault env name = Some f ->
  exists tables,
    main cwd env w
    = (Ok tt,
       {| frames := frames w ++
            [d1; d2; d3; cleaned_frame d1; cleaned_frame d2; cleaned_frame d3];
          files := files w; database := Some tables; connection := Connected;
          trace := trace w ++ events_before_load cwd ++
                   [EvConnect (db_path cwd)] ++ (EvWrite <$> done ++ [name]) ++
                   [EvRollback; load_error_line (OperationalError (wf_message f))] |}) /\
    (forall i m x, table_names !! i = Some m ->
                   [cleaned_frame d1; cleaned_frame d2; cleaned_frame d3] !! i = Some x ->
                   m ∈ done -> tables !! m = Some x) /\
    (forall m, m ∈ rest -> tables !! m = default ∅ (database w) !! m) /\
    tables !! name = wf_residue f.
Proof.
  intros H1 H2 H3 Hc1 Hc2 Hc3 Hconn Hsplit Hdone Hf.
  rewrite (main_reaches_load cwd env w d1 d2 d3) by done.
  set (w2 := extend [d1; d2; d3; cleaned_frame d1; cleaned_frame d2; cleaned_frame d3]
               (events_before_load cwd) w).
  destruct (load_tables_write_failure cwd env (3 + length (frames w))
              (4 + length (frames w)) (5 + length (frames w)) w2
              (cleaned_frame d1) (cleaned_frame d2) (cleaned_frame d3)
              done name rest f)
    as (tables & E & Hbefore & Hafter & Hat);
    [unfold w2; by rewrite (lookup_new_frame w _ _ 3)
    | unfold w2; by rewrite (lookup_new_frame w _ _ 4)
    | unfold w2; by rewrite (lookup_new_frame w _ _ 5)
    | exact Hconn | exact Hsplit | exact Hdone | exact Hf |].
  exists tables. split; [|done].
  erewrite bind_ok; [| exact E]. unfold mret, M_ret. simpl. by rewrite <- !app_assoc.
Qed.

(** Either no write fails, or there is a first table whose write fails. *)
Lemma first_write_fault env :
  (forall name, name ∈ table_names -> write_fault env name = None) \/
  exists done name rest f,
    table_names = done ++ name :: rest /\
    (forall m, m ∈ done -> write_fault env m = None) /\
    write_fault env name = Some f.
Proof.
  unfold table_names.
  destruct (write_fault env "crop_production") as [f|] eqn:E1.
  { right. exists [], "crop_production", ["normal_rainfall"; "monthly_rainfall"], f.
    split; [done|]. split; [|done]. by intros m ?%elem_of_nil. }
  destruct (write_fault env "normal_rainfall") as [f|] eqn:E2.
  { right. exists ["crop_production"], "normal_rainfall", ["monthly_rainfall"], f.
    split; [done|]. split; [|done]. by intros m ->%list_elem_of_singleton. }
  destruct (write_fault env "monthly_rainfall") as [f|] eqn:E3.
  { right. exists ["crop_production"; "normal_rainfall"], "monthly_rainfall", [], f.
    split; [done|]. split; [|done].
    intros m Hm. repeat (apply elem_of_cons in Hm as [->|Hm]; [done|]).
    by apply elem_of_nil in Hm. }
  left. intros m Hm. repeat (apply elem_of_cons in Hm as [->|Hm]; [done|]).
  by apply elem_of_nil in Hm.
Qed.

End MainFacts.

(** ** The claims of the specification: [clean_data] *)

Section CleanClaims.
Implicit Types (h : heap) (d : DataFrame) (l r : loc).

(** What [clean_data] makes of a text column, entry by entry: the text of
    the entry, stripped. A missing entry goes through [str] like any other
    and comes out as the text "nan" or "None". *)
Lemma text_entries_after_clean h l d r h' :
  h !! l = Some d -> clean_data l h = (Ok r, h') ->
  exists d', h' !! r = Some d' /\
    forall i name xs, d !! i = Some (name, Object xs) ->
      exists ys, d' !! i = Some (normalize_label name, Object ys) /\
        length ys = length xs /\
        forall j o, xs !! j = Some o ->
          ys !! j = Some (PyStr (Text.strip (py_str o))) /\
          Text.leading_space (Text.strip (py_str o)) = false /\
          Text.trailing_space (Text.strip (py_str o)) = false.
Proof.
  intros Hl Hrun. destruct (clean_data_inv h l d r h' Hl Hrun) as (_ & -> & ->).
  exists (cleaned_frame d). split; [by eapply lookup_insert_heap|].
  intros i name xs Hi. eexists. split; [by rewrite lookup_cleaned, Hi|].
  split; [by rewrite length_fmap|].
  intros j o Hj. rewrite list_lookup_fmap, Hj. simpl.
  split; [done|]. split; [apply strip_no_leading | apply strip_no_trailing].
Qed.

(** C1. After [clean_data], in a column that is not numeric every missing
    entry should be the text "Unknown" and every entry stripped. On a column
    holding "  Wheat " and a missing entry the code strips the text but
    leaves the text "nan" for the missing entry: [astype(str)] has turned it
    into text before [fillna('Unknown')] looks for it. *)
Theorem clean_data_missing_text_is_nan :
  clean_data 0 [[("Crop", Object [PyStr "  Wheat "; PyNaN])]]
  = (Ok 0, [[("crop", Object [PyStr "Wheat"; PyStr "nan"])]]).
Proof. reflexivity. Qed.

(** C2, as the specification states it, fails: there is a heap on which
    [clean_data] returns and the frame behind the reference it was given is
    no longer what it was. *)
Lemma clean_data_changes_its_argument :
  ¬ (forall h l d r h',
       h !! l = Some d -> clean_data l h = (Ok r, h') -> h' !! l = Some d).
Proof.
  intros H.
  specialize (H [sample_crop] 0 sample_crop 0 [cleaned_frame sample_crop]
                eq_refl eq_refl).
  discriminate H.
Qed.

(** C2, amended. [clean_data] assigns through the reference it is given: the
    frame behind it becomes the cleaned frame, the reference returned is the
    same one, and no other object changes. The copy is taken by the caller:
    [clean_data(df.copy())], as [main] writes it, leaves every object that
    was on the heap as it was, whatever the outcome, and returns a reference
    to a new object. *)
Theorem clean_data_in_place_copy_by_caller h l d :
  h !! l = Some d ->
  (forall r h', clean_data l h = (Ok r, h') ->
     r = l /\ h' = <[l := cleaned_frame d]> h) /\
  (forall res h', (c ← copy l; clean_data c) h = (res, h') ->
     take (length h) h' = h /\ h' !! l = Some d /\
     forall r, res = Ok r -> r = length h /\ h' !! r = Some (cleaned_frame d)).
Proof.
  intros Hl. split.
  - intros r h' Hrun. by destruct (clean_data_inv h l d r h' Hl Hrun) as (_ & -> & ->).
  - intros res h' Hrun. pose proof (copy_clean_frame h l res h' Hrun) as Htake.
    split; [done|]. split.
    + rewrite <- Htake in Hl. by apply lookup_take_Some in Hl as [? _].
    + intros r ->. destruct (decide (cleanable d)) as [Hc|Hc].
      * rewrite (copy_clean_ok h l d Hl Hc) in Hrun. simplify_eq.
        split; [done|]. by rewrite lookup_app_r, Nat.sub_diag.
      * destruct (copy_clean_dup h l d Hl Hc) as [d' E]. by rewrite E in Hrun.
Qed.

Lemma clean_data_in_place_copy_by_caller_witness :
  [sample_crop] !! 0 = Some sample_crop /\
  (forall res h', (c ← copy 0; clean_data c) [sample_crop] = (res, h') ->
     take 1 h' = [sample_crop] /\ h' !! 0 = Some sample_crop /\
     forall r, res = Ok r -> r = 1 /\ h' !! r = Some (cleaned_frame sample_crop)).
Proof.
  split; [reflexivity|].
  exact (proj2 (clean_data_in_place_copy_by_caller [sample_crop] 0 sample_crop eq_refl)).
Defined.

(** C3. After [clean_data], in every numeric column each missing entry is 0
    and no entry is missing any more; the other entries are what they
    were. *)
Theorem numeric_missing_become_zero h l d r h' :
  h !! l = Some d -> clean_data l h = (Ok r, h') ->
  exists d', h' !! r = Some d' /\
    forall i name s, d !! i = Some (name, s) -> numeric_dtype s = true ->
      exists s', d' !! i = Some (normalize_label name, s') /\
        numeric_dtype s' = true /\
        length (values s') = length (values s) /\
        forall j x, values s !! j = Some x ->
          exists x', values s' !! j = Some x' /\
            isna x' = false /\
            (isna x = true -> x' = SFloat 0) /\
            (isna x = false -> x' = x).
Proof.
  intros Hl Hrun. destruct (clean_data_inv h l d r h' Hl Hrun) as (_ & -> & ->).
  exists (cleaned_frame d). split; [by eapply lookup_insert_heap|].
  intros i name s Hi Hnum. exists (cleaned_series s).
  split; [by rewrite lookup_cleaned, Hi|].
  split; [by rewrite numeric_dtype_cleaned|].
  split; [by rewrite values_cleaned, length_fmap|].
  intros j x Hj. exists (clean_value x).
  split; [by rewrite values_cleaned, list_lookup_fmap, Hj|].
  split; [apply clean_value_not_na|].
  destruct s as [[xs|xs|xs]|xs]; [| | |done]; simpl in Hj;
    apply list_lookup_fmap_Some in Hj as (y & -> & _); simpl; [done| |done].
  unfold fill_float. split; [by intros ->|by intros ->].
Qed.

Lemma numeric_missing_become_zero_witness :
  [sample_crop] !! 0 = Some sample_crop /\
  clean_data 0 [sample_crop] = (Ok 0, [cleaned_frame sample_crop]) /\
  exists d', [cleaned_frame sample_crop] !! 0 = Some d' /\
    forall i name s, sample_crop !! i = Some (name, s) -> numeric_dtype s = true ->
      exists s', d' !! i = Some (normalize_label name, s') /\
        numeric_dtype s' = true /\
        length (values s') = length (values s) /\
        forall j x, values s !! j = Some x ->
          exists x', values s' !! j = Some x' /\
            isna x' = false /\
            (isna x = true -> x' = SFloat 0) /\
            (isna x = false -> x' = x).
Proof.
  split; [reflexivity|]. split; [reflexivity|].
  apply (numeric_missing_become_zero [sample_crop] 0 sample_crop 0
           [cleaned_frame sample_crop]); reflexivity.
Defined.

(** C4. After [clean_data] the labels are the old labels, in order, each
    lower-cased and with every space replaced by an underscore; the label
    "District Name" becomes "district_name". *)
Theorem column_names_normalized h l d r h' :
  h !! l = Some d -> clean_data l h = (Ok r, h') ->
  exists d', h' !! r = Some d' /\
    columns d' = (fun name => Text.replace " " "_" (Text.lower name)) <$> columns d /\
    Text.replace " " "_" (Text.lower "District Name") = "district_name".
Proof.
  intros Hl Hrun. destruct (clean_data_inv h l d r h' Hl Hrun) as (_ & -> & ->).
  exists (cleaned_frame d). split; [by eapply lookup_insert_heap|].
  split; [apply columns_cleaned | reflexivity].
Qed.

Lemma column_names_normalized_witness :
  [sample_crop] !! 0 = Some sample_crop /\
  clean_data 0 [sample_crop] = (Ok 0, [cleaned_frame sample_crop]) /\
  exists d', [cleaned_frame sample_crop] !! 0 = Some d' /\
    columns d' = ["district_name"; "crop"; "area_ha"; "year"] /\
    Text.replace " " "_" (Text.lower "District Name") = "district_name".
Proof.
  split; [reflexivity|]. split; [reflexivity|].
  exact (column_names_normalized [sample_crop] 0 sample_crop 0
           [cleaned_frame sample_crop] eq_refl eq_refl).
Defined.

(** C5. [clean_data] is idempotent: run on the frame a first run returned,
    it returns the same reference and leaves the frame, and the whole heap,
    as they were. *)
Theorem clean_data_idempotent h l d r h1 :
  h !! l = Some d -> clean_data l h = (Ok r, h1) ->
  clean_data r h1 = (Ok r, h1).
Proof.
  intros Hl Hrun. destruct (clean_data_inv h l d r h1 Hl Hrun) as (Hc & -> & ->).
  rewrite (clean_data_ok _ l (cleaned_frame d));
    [| by eapply lookup_insert_heap | by apply cleanable_cleaned].
  by rewrite cleaned_frame_idem, list_insert_insert_eq.
Qed.

Lemma clean_data_idempotent_witness :
  [sample_crop] !! 0 = Some sample_crop /\
  clean_data 0 [sample_crop] = (Ok 0, [cleaned_frame sample_crop]) /\
  clean_data 0 [cleaned_frame sample_crop] = (Ok 0, [cleaned_frame sample_crop]).
Proof.
  split; [reflexivity|]. split; [reflexivity|].
  exact (clean_data_idempotent [sample_crop] 0 sample_crop 0
           [cleaned_frame sample_crop] eq_refl eq_refl).
Defined.

(** C10. [clean_data] keeps the shape of the frame: as many columns, in the
    same order; in each column the same dtype class and as many entries, and
    the entry of a row is made from the entry the same row had. Only labels
    and entries change. *)
Theorem clean_data_preserves_shape h l d r h' :
  h !! l = Some d -> clean_data l h = (Ok r, h') ->
  exists d', h' !! r = Some d' /\
    length d' = length d /\
    forall i name s, d !! i = Some (name, s) ->
      exists s', d' !! i = Some (normalize_label name, s') /\
        numeric_dtype s' = numeric_dtype s /\
        length (values s') = length (values s) /\
        forall j x, values s !! j = Some x -> values s' !! j = Some (clean_value x).
Proof.
  intros Hl Hrun. destruct (clean_data_inv h l d r h' Hl Hrun) as (_ & -> & ->).
  exists (cleaned_frame d). split; [by eapply lookup_insert_heap|].
  split; [apply length_fmap|].
  intros i name s Hi. exists (cleaned_series s).
  split; [by rewrite lookup_cleaned, Hi|].
  split; [apply numeric_dtype_cleaned|].
  split; [by rewrite values_cleaned, length_fmap|].
  intros j x Hj. by rewrite values_cleaned, list_lookup_fmap, Hj.
Qed.

Lemma clean_data_preserves_shape_witness :
  [sample_crop] !! 0 = Some sample_crop /\
  clean_data 0 [sample_crop] = (Ok 0, [cleaned_frame sample_crop]) /\
  exists d', [cleaned_frame sample_crop] !! 0 = Some d' /\
    length d' = 4 /\
    forall i name s, sample_crop !! i = Some (name, s) ->
      exists s', d' !! i = Some (normalize_label name, s') /\
        numeric_dtype s' = numeric_dtype s /\
        length (values s') = length (values s) /\
        forall j x, values s !! j = Some x -> values s' !! j = Some (clean_value x).
Proof.
  split; [reflexivity|]. split; [reflexivity|].
  exact (clean_data_preserves_shape [sample_crop] 0 sample_crop 0
           [cleaned_frame sample_crop] eq_refl eq_refl).
Defined.

End CleanClaims.

(** ** The claims of the specification: [main] *)

Section MainClaims.
Implicit Types (w : world) (env : faults).

Lemma append_empty_r (s : string) : s +:+ "" = s.
Proof.
  induction s as [|c s IH]; [done|].
  change (String c (s +:+ "") = String c s). by rewrite IH.
Qed.

Lemma path_in_diagnostic p :
  Text.contains p
    ("🚨HEY! I couldn't find a file. Error: " +:+ exn_str (FileNotFoundError p)).
Proof.
  by exists
    "🚨HEY! I couldn't find a file. Error: [Errno 2] No such file or directory: '",
    "'".
Qed.

Lemma message_in_diagnostic msg :
  Text.contains msg
    ("🔥Whoops, something went wrong while baking. Error: "
     +:+ exn_str (OperationalError msg)).
Proof.
  exists "🔥Whoops, something went wrong while baking. Error: ", "".
  by rewrite append_empty_r.
Qed.

Lemma no_close_in (evs : list event) :
  Forall (fun e => e ≠ EvClose) evs -> EvClose ∉ evs.
Proof. intros H Hin. by apply (proj1 (Forall_forall _ _) H) in Hin. Qed.

Lemma no_close_before_load cwd : Forall (fun e => e ≠ EvClose) (events_before_load cwd).
Proof.
  unfold events_before_load, start_lines. simpl.
  by repeat (apply Forall_cons; split; [done|]).
Qed.

Lemma no_close_prints_reads (evs : list event) :
  Forall (fun e => (exists line, e = EvPrint line) \/ (exists q, e = EvRead q)) evs ->
  Forall (fun e => e ≠ EvClose) evs.
Proof.
  intros H. eapply Forall_impl; [exact H|]. intros e [[? ->]|[? ->]]; done.
Qed.

(** C6. When one of the three input files is missing, [main] returns after
    the Extract step: the database is neither created nor changed, no
    connection is opened, nothing is written, no frame is copied or cleaned
    (every new frame object is a file as it was read), and a line is printed
    that holds the path of a missing file. *)
Theorem missing_input_aborts_before_load cwd env w :
  (exists p, p ∈ input_paths cwd /\ files w !! p = None) ->
  exists w', main cwd env w = (Ok tt, w') /\
    database w' = database w /\ connection w' = connection w /\
    files w' = files w /\
    (forall e, e ∈ new_events w w' ->
       (exists line, e = EvPrint line) \/ (exists q, e = EvRead q)) /\
    (exists raws, frames w' = frames w ++ raws /\
       Forall (fun d => exists q, files w !! q = Some d) raws) /\
    exists p line, p ∈ input_paths cwd /\ files w !! p = None /\
      EvPrint line ∈ new_events w w' /\ Text.contains p line.
Proof.
  intros Hmiss.
  destruct (main_missing cwd env w Hmiss)
    as (raws & reads & p & E & Hp & Hnone & Hraws & Hreads).
  eexists. split; [exact E|]. rewrite new_events_extend.
  split; [done|]. split; [done|]. split; [done|]. split; [|split].
  - intros e. unfold start_lines, missing_file_lines.
    rewrite !elem_of_app, !elem_of_cons.
    intros [[->|[->|[]%elem_of_nil]]|[Hr|[->|[->|[]%elem_of_nil]]]]; eauto.
    right. by apply (proj1 (Forall_forall _ _) Hreads) in Hr.
  - by exists raws.
  - exists p, ("🚨HEY! I couldn't find a file. Error: " +:+ exn_str (FileNotFoundError p)).
    split; [done|]. split; [done|]. split; [|apply path_in_diagnostic].
    unfold missing_file_lines. rewrite !elem_of_app. right; right. left.
Qed.

Lemma missing_input_aborts_before_load_witness :
  (exists p, p ∈ input_paths sample_cwd /\ files sample_world_missing !! p = None) /\
  exists w', main sample_cwd no_faults sample_world_missing = (Ok tt, w') /\
    database w' = database sample_world_missing /\
    connection w' = connection sample_world_missing /\
    files w' = files sample_world_missing /\
    (forall e, e ∈ new_events sample_world_missing w' ->
       (exists line, e = EvPrint line) \/ (exists q, e = EvRead q)) /\
    (exists raws, frames w' = frames sample_world_missing ++ raws /\
       Forall (fun d => exists q, files sample_world_missing !! q = Some d) raws) /\
    exists p line, p ∈ input_paths sample_cwd /\
      files sample_world_missing !! p = None /\
      EvPrint line ∈ new_events sample_world_missing w' /\ Text.contains p line.
Proof.
  assert (exists p, p ∈ input_paths sample_cwd /\
                    files sample_world_missing !! p = None) as H.
  { exists (normal_rainfall_path sample_cwd). split; [right; left | reflexivity]. }
  split; [exact H|].
  exact (missing_input_aborts_before_load sample_cwd no_faults sample_world_missing H).
Defined.


(** C7. When the write of a table fails, the tables still to be written are
    not written, the line with the error message is the last thing printed,
    and the tables written before stay replaced: nothing restores them. With
    the second write failing, the first table holds the new frame and the
    third is as the run found it. *)
Theorem write_failure_aborts_remaining cwd env w d1 d2 d3 done name rest f :
  files w !! crop_data_path cwd = Some d1 ->
  files w !! normal_rainfall_path cwd = Some d2 ->
  files w !! monthly_rainfall_path cwd = Some d3 ->
  cleanable d1 -> cleanable d2 -> cleanable d3 ->
  connect_fault env = None ->
  table_names = done ++ name :: rest ->
  (forall m, m ∈ done -> write_fault env m = None) ->
  write_fault env name = Some f ->
  exists w' tables, main cwd env w = (Ok tt, w') /\
    database w' = Some tables /\
    (forall i m x, table_names !! i = Some m ->
       [cleaned_frame d1; cleaned_frame d2; cleaned_frame d3] !! i = Some x ->
       m ∈ done -> tables !! m = Some x) /\
    (forall m, m ∈ rest ->
       tables !! m = default ∅ (database w) !! m /\
       EvWrite m ∉ new_events w w') /\
    last (new_events w w')
      = Some (load_error_line (OperationalError (wf_message f))) /\
    Text.contains (wf_message f)
      ("🔥Whoops, something went wrong while baking. Error: "
       +:+ exn_str (OperationalError (wf_message f))).
Proof.
  intros H1 H2 H3 Hc1 Hc2 Hc3 Hconn Hsplit Hdone Hf.
  destruct (main_write_failure cwd env w d1 d2 d3 done name rest f)
    as (tables & E & Hbefore & Hafter & Hat); [done..|].
  eexists _, tables. split; [exact E|]. unfold new_events. simpl.
  rewrite drop_app_length.
  split; [done|]. split; [done|]. split; [|split].
  - intros m Hm. split; [by apply Hafter|].
    assert (NoDup (done ++ name :: rest)) as Hnd.
    { rewrite <- Hsplit. unfold table_names.
      apply (bool_decide_unpack _). by vm_compute. }
    apply NoDup_app in Hnd as (_ & Hdisj & [Hname _]%NoDup_cons).
    unfold load_error_line. intros Hin.
    repeat (apply elem_of_cons in Hin as [Hin|Hin]; [discriminate Hin|]).
    apply elem_of_app in Hin as [Hin|Hin].
    + apply list_elem_of_fmap in Hin as (y & [= Heq] & Hy). subst y.
      apply elem_of_app in Hy as [Hy|Hy].
      * apply (Hdisj m Hy). by right.
      * apply list_elem_of_singleton in Hy as ->. done.
    + repeat (apply elem_of_cons in Hin as [Hin|Hin]; [discriminate Hin|]).
      by apply elem_of_nil in Hin.
  - rewrite !last_cons, last_app. reflexivity.
  - apply message_in_diagnostic.
Qed.

Lemma write_failure_aborts_remaining_witness :
  files sample_world_old !! crop_data_path sample_cwd = Some sample_crop /\
  files sample_world_old !! normal_rainfall_path sample_cwd = Some sample_normal /\
  files sample_world_old !! monthly_rainfall_path sample_cwd = Some sample_monthly /\
  cleanable sample_crop /\ cleanable sample_normal /\ cleanable sample_monthly /\
  connect_fault sample_faults = None /\
  write_fault sample_faults "crop_production" = None /\
  write_fault sample_faults "normal_rainfall"
    = Some {| wf_message := "disk I/O error"; wf_residue := None |} /\
  exists w' tables, main sample_cwd sample_faults sample_world_old = (Ok tt, w') /\
    database w' = Some tables /\
    tables !! "crop_production" = Some (cleaned_frame sample_crop) /\
    tables !! "monthly_rainfall" = Some sample_normal /\
    (EvWrite "monthly_rainfall" ∉ new_events sample_world_old w') /\
    (last (new_events sample_world_old w')
     = Some (load_error_line (OperationalError "disk I/O error"))).
Proof.
  assert (cleanable sample_crop) as Hc1
    by (apply (bool_decide_unpack _); vm_compute; reflexivity).
  assert (cleanable sample_normal) as Hc2
    by (apply (bool_decide_unpack _); vm_compute; reflexivity).
  assert (cleanable sample_monthly) as Hc3
    by (apply (bool_decide_unpack _); vm_compute; reflexivity).
  do 9 (split; [first [reflexivity | assumption]|]).
  destruct (write_failure_aborts_remaining sample_cwd sample_faults sample_world_old
              sample_crop sample_normal sample_monthly
              ["crop_production"] "normal_rainfall" ["monthly_rainfall"]
              {| wf_message := "disk I/O error"; wf_residue := None |})
    as (w' & tables & E & Hdb & Hbefore & Hafter & Hlast & _);
    try reflexivity; try assumption.
  - intros m Hm. apply list_elem_of_singleton in Hm as ->. reflexivity.
  - exists w', tables. split; [exact E|]. split; [exact Hdb|].
    split; [apply (Hbefore 0); [reflexivity | reflexivity | left]|].
    destruct (Hafter "monthly_rainfall" ltac:(left)) as [Hm Hev].
    split; [rewrite Hm; reflexivity|]. split; [exact Hev | exact Hlast].
Defined.


Lemma replace_three_twice (t : gmap string DataFrame) a b c :
  <["monthly_rainfall" := c]> (<["normal_rainfall" := b]> (<["crop_production" := a]>
    (<["monthly_rainfall" := c]> (<["normal_rainfall" := b]>
       (<["crop_production" := a]> t)))))
  = <["monthly_rainfall" := c]> (<["normal_rainfall" := b]>
      (<["crop_production" := a]> t)).
Proof.
  apply map_eq. intros k. rewrite !lookup_insert.
  by repeat case_decide.
Qed.

(** With nothing failing in the database, a second run on the files and the
    database the first run left ends with the database the first run ended
    with, also when the runs stop early: on a missing input, or on a frame
    that cannot be cleaned. *)
Lemma rerun_database_unchanged cwd w :
  let w1 := (main cwd no_faults w).2 in
  let w2 := (main cwd no_faults (restart w1)).2 in
  files w1 = files w /\ database w2 = database w1.
Proof.
  intros w1 w2. unfold w2, w1. clear w1 w2.
  destruct (files w !! crop_data_path cwd) as [d1|] eqn:H1;
    [destruct (files w !! normal_rainfall_path cwd) as [d2|] eqn:H2;
      [destruct (files w !! monthly_rainfall_path cwd) as [d3|] eqn:H3|]|].
  - destruct (decide (cleanable d1 /\ cleanable d2 /\ cleanable d3))
      as [(Hc1 & Hc2 & Hc3)|Hnot].
    + rewrite (main_success cwd no_faults w d1 d2 d3) by done. simpl.
      split; [done|].
      rewrite (main_success cwd no_faults _ d1 d2 d3) by done. simpl.
      by rewrite replace_three_twice.
    + destruct (main_unclean cwd no_faults w d1 d2 d3 H1 H2 H3 Hnot)
        as (fr & evs & E & _). rewrite E. simpl. split; [done|].
      destruct (main_unclean cwd no_faults (restart (extend fr evs w)) d1 d2 d3
                  H1 H2 H3 Hnot) as (fr' & evs' & E' & _).
      by rewrite E'.
  - assert (exists p, p ∈ input_paths cwd /\ files w !! p = None) as Hmiss
      by (exists (monthly_rainfall_path cwd); split; [right; right; left | done]).
    destruct (main_missing cwd no_faults w Hmiss) as (raws & reads & p & E & _).
    rewrite E. cbn [snd]. split; [done|].
    destruct (main_missing cwd no_faults (restart (extend raws (start_lines ++ reads ++
                missing_file_lines (FileNotFoundError p)) w)) Hmiss)
      as (raws' & reads' & p' & E' & _).
    by rewrite E'.
  - assert (exists p, p ∈ input_paths cwd /\ files w !! p = None) as Hmiss
      by (exists (normal_rainfall_path cwd); split; [right; left | done]).
    destruct (main_missing cwd no_faults w Hmiss) as (raws & reads & p & E & _).
    rewrite E. cbn [snd]. split; [done|].
    destruct (main_missing cwd no_faults (restart (extend raws (start_lines ++ reads ++
                missing_file_lines (FileNotFoundError p)) w)) Hmiss)
      as (raws' & reads' & p' & E' & _).
    by rewrite E'.
  - assert (exists p, p ∈ input_paths cwd /\ files w !! p = None) as Hmiss
      by (exists (crop_data_path cwd); split; [left | done]).
    destruct (main_missing cwd no_faults w Hmiss) as (raws & reads & p & E & _).
    rewrite E. cbn [snd]. split; [done|].
    destruct (main_missing cwd no_faults (restart (extend raws (start_lines ++ reads ++
                missing_file_lines (FileNotFoundError p)) w)) Hmiss)
      as (raws' & reads' & p' & E' & _).
    by rewrite E'.
Qed.

(** C8. With the three files in place and nothing failing, the first run
    returns with each of the three tables holding the cleaned frame of its
    file, whatever the database held before: a write replaces the table.
    The other tables and the files are untouched. The second run, a new
    process on the files and the database the first one left, reads the same
    files, writes the three tables again and returns with the same database:
    each table holds what it held after the first run. *)
Theorem second_run_same_database cwd w d1 d2 d3 :
  files w !! crop_data_path cwd = Some d1 ->
  files w !! normal_rainfall_path cwd = Some d2 ->
  files w !! monthly_rainfall_path cwd = Some d3 ->
  cleanable d1 -> cleanable d2 -> cleanable d3 ->
  exists w1 w2 tables,
    main cwd no_faults w = (Ok tt, w1) /\
    main cwd no_faults (restart w1) = (Ok tt, w2) /\
    files w1 = files w /\ files w2 = files w /\
    database w1 = Some tables /\
    database w2 = Some tables /\
    tables !! "crop_production" = Some (cleaned_frame d1) /\
    tables !! "normal_rainfall" = Some (cleaned_frame d2) /\
    tables !! "monthly_rainfall" = Some (cleaned_frame d3) /\
    (forall name, name ∉ table_names ->
       tables !! name = default ∅ (database w) !! name) /\
    new_events w w1 = events_before_load cwd ++ events_of_load cwd /\
    trace w2 = events_before_load cwd ++ events_of_load cwd.
Proof.
  intros H1 H2 H3 Hc1 Hc2 Hc3.
  eexists _, _, _.
  split; [by apply (main_success cwd no_faults w d1 d2 d3)|].
  split; [by apply (main_success cwd no_faults _ d1 d2 d3)|].
  cbn [files database trace restart default].
  split; [done|]. split; [done|]. split; [reflexivity|].
  split; [simpl; by rewrite replace_three_twice|].
  split; [by rewrite lookup_insert_ne, lookup_insert_ne, lookup_insert_eq|].
  split; [by rewrite lookup_insert_ne, lookup_insert_eq|].
  split; [by rewrite lookup_insert_eq|].
  split; [|split; [unfold new_events; cbn [trace]; by rewrite drop_app_length | done]].
  intros name Hname. unfold table_names in Hname.
  rewrite !not_elem_of_cons in Hname. destruct Hname as (? & ? & ? & _).
  by rewrite !lookup_insert_ne.
Qed.

Lemma second_run_same_database_witness :
  files sample_world_old !! crop_data_path sample_cwd = Some sample_crop /\
  files sample_world_old !! normal_rainfall_path sample_cwd = Some sample_normal /\
  files sample_world_old !! monthly_rainfall_path sample_cwd = Some sample_monthly /\
  cleanable sample_crop /\ cleanable sample_normal /\ cleanable sample_monthly /\
  default ∅ (database sample_world_old) !! "crop_production" = Some sample_monthly /\
  sample_monthly ≠ cleaned_frame sample_crop /\
  exists w1 w2 tables,
    main sample_cwd no_faults sample_world_old = (Ok tt, w1) /\
    main sample_cwd no_faults (restart w1) = (Ok tt, w2) /\
    files w1 = files sample_world_old /\ files w2 = files sample_world_old /\
    database w1 = Some tables /\
    database w2 = Some tables /\
    tables !! "crop_production" = Some (cleaned_frame sample_crop) /\
    tables !! "normal_rainfall" = Some (cleaned_frame sample_normal) /\
    tables !! "monthly_rainfall" = Some (cleaned_frame sample_monthly) /\
    (forall name, name ∉ table_names ->
       tables !! name = default ∅ (database sample_world_old) !! name) /\
    new_events sample_world_old w1
    = events_before_load sample_cwd ++ events_of_load sample_cwd /\
    trace w2 = events_before_load sample_cwd ++ events_of_load sample_cwd.
Proof.
  assert (cleanable sample_crop) as Hc1
    by (apply (bool_decide_unpack _); vm_compute; reflexivity).
  assert (cleanable sample_normal) as Hc2
    by (apply (bool_decide_unpack _); vm_compute; reflexivity).
  assert (cleanable sample_monthly) as Hc3
    by (apply (bool_decide_unpack _); vm_compute; reflexivity).
  do 7 (split; [first [reflexivity | assumption]|]).
  split; [intros H; apply (f_equal length) in H; vm_compute in H; discriminate H|].
  apply (second_run_same_database sample_cwd sample_world_old
           sample_crop sample_normal sample_monthly);
    first [reflexivity | assumption].
Defined.

(** X10. In every run, however [main] is left: no event closes the
    connection, and once the database has been opened the connection is
    still open when [main] is left. The database is opened in every run that
    finds the three files, can clean them and is not refused by
    [sq.connect]. *)
Lemma main_never_closes cwd env w :
  exists r w' evs, main cwd env w = (r, w') /\
    trace w' = trace w ++ evs /\
    (EvClose ∉ evs) /\
    (EvConnect (db_path cwd) ∈ evs -> connection w' = Connected) /\
    (connect_fault env = None ->
     (exists d1 d2 d3,
        files w !! crop_data_path cwd = Some d1 /\
        files w !! normal_rainfall_path cwd = Some d2 /\
        files w !! monthly_rainfall_path cwd = Some d3 /\
        cleanable d1 /\ cleanable d2 /\ cleanable d3) ->
     EvConnect (db_path cwd) ∈ evs).
Proof.
  assert (forall evs : list event,
    Forall (fun e => (exists line, e = EvPrint line) \/ (exists q, e = EvRead q)) evs ->
    (EvClose ∉ evs) /\ EvConnect (db_path cwd) ∉ evs) as Hquiet.
  { intros evs H. split; intros Hin;
      apply (proj1 (Forall_forall _ _) H) in Hin as [[? ?]|[? ?]]; done. }
  assert ((exists p, p ∈ input_paths cwd /\ files w !! p = None) ->
    exists r w' evs, main cwd env w = (r, w') /\
      trace w' = trace w ++ evs /\
      (EvClose ∉ evs) /\ (EvConnect (db_path cwd) ∈ evs -> connection w' = Connected) /\
      (connect_fault env = None ->
       (exists d1 d2 d3,
          files w !! crop_data_path cwd = Some d1 /\
          files w !! normal_rainfall_path cwd = Some d2 /\
          files w !! monthly_rainfall_path cwd = Some d3 /\
          cleanable d1 /\ cleanable d2 /\ cleanable d3) ->
       EvConnect (db_path cwd) ∈ evs))
    as Hmissing.
  { intros Hmiss.
    destruct (main_missing cwd env w Hmiss) as (raws & reads & p & E & _ & _ & _ & Hr).
    eexists _, _, _. split; [exact E|]. split; [done|].
    destruct (Hquiet (start_lines ++ reads ++ missing_file_lines (FileNotFoundError p)))
      as [Hc Hn].
    - apply Forall_app. split; [|apply Forall_app; split].
      + unfold start_lines. repeat (apply Forall_cons; split; [eauto|]). by apply Forall_nil.
      + eapply Forall_impl; [exact Hr|]. eauto.
      + unfold missing_file_lines.
        repeat (apply Forall_cons; split; [eauto|]). by apply Forall_nil.
    - split; [done|]. split; [by intros ?|].
      intros _ (d1 & d2 & d3 & H1 & H2 & H3 & _).
      destruct Hmiss as (q & Hq & Hnone). unfold input_paths in Hq.
      repeat (apply elem_of_cons in Hq as [->|Hq]; [congruence|]).
      by apply elem_of_nil in Hq. }
  destruct (files w !! crop_data_path cwd) as [d1|] eqn:H1;
    [destruct (files w !! normal_rainfall_path cwd) as [d2|] eqn:H2;
      [destruct (files w !! monthly_rainfall_path cwd) as [d3|] eqn:H3|]|].
  2:{ apply Hmissing. exists (monthly_rainfall_path cwd). split; [right; right; left | done]. }
  2:{ apply Hmissing. exists (normal_rainfall_path cwd). split; [right; left | done]. }
  2:{ apply Hmissing. exists (crop_data_path cwd). split; [left | done]. }
  destruct (decide (cleanable d1 /\ cleanable d2 /\ cleanable d3))
    as [(Hc1 & Hc2 & Hc3)|Hnot].
  2:{ destruct (main_unclean cwd env w d1 d2 d3 H1 H2 H3 Hnot) as (fr & evs & E & He).
      eexists _, _, _. split; [exact E|]. split; [done|].
      destruct (Hquiet evs He) as [Hc Hn]. split; [done|]. split; [by intros ?|].
      intros _ (e1 & e2 & e3 & [= <-] & [= <-] & [= <-] & Hcl). by destruct Hnot. }
  destruct (connect_fault env) as [msg|] eqn:Hconn.
  { eexists _, _, _.
    split; [by apply (main_no_connection cwd env w d1 d2 d3 msg)|].
    split; [done|].
    destruct (Hquiet (events_before_load cwd ++ [load_error_line (OperationalError msg)]))
      as [Hc Hn]; [|split; [done|]; split; [by intros ? | by intros ?]].
    unfold events_before_load, start_lines, load_error_line. simpl.
    repeat (apply Forall_cons; split; [eauto|]). by apply Forall_nil. }
  destruct (first_write_fault env) as [Hnone|(dn & name & rest & f & Hsplit & Hdone & Hf)].
  - eexists _, _, _.
    split; [by apply (main_success cwd env w d1 d2 d3)|].
    split; [done|].
    split; [|split; [done|]].
    + apply no_close_in, Forall_app. split; [apply no_close_before_load|].
      repeat (apply Forall_cons; split; [done|]). by apply Forall_nil.
    + intros _ _. apply elem_of_app. right. left.
  - destruct (main_write_failure cwd env w d1 d2 d3 dn name rest f)
      as (tables & E & _); [done..|].
    eexists _, _, _. split; [exact E|]. split; [done|].
    split; [|split; [done|]].
    + apply no_close_in.
      apply Forall_app; split; [apply no_close_before_load|].
      apply Forall_app; split; [by repeat (apply Forall_cons; split; [done|])|].
      apply Forall_app; split; [by apply Forall_fmap, Forall_true|].
      unfold load_error_line. by repeat (apply Forall_cons; split; [done|]).
    + intros _ _. apply elem_of_app. right. apply elem_of_app. left. left.
Qed.

(** C9. The connection should be closed on every way out of the Load step.
    In a run where nothing fails, the database is opened right before the
    three writes, the block is left with a commit, and when [main] returns
    the connection is still open: no event closes it. *)
Theorem main_leaves_connection_open :
  exists w', main sample_cwd no_faults sample_world = (Ok tt, w') /\
    connection w' = Connected /\
    (EvClose ∉ trace w') /\
    drop 9 (trace w')
    = [EvConnect (db_path sample_cwd); EvWrite "crop_production";
       EvWrite "normal_rainfall"; EvWrite "monthly_rainfall";
       EvPrint "Ding! Cake is ready. Data loaded into the database.";
       EvCommit;
       EvPrint "--- ETL Pipeline Complete. Bon Appétit! ---"].
Proof.
  eexists. split.
  - apply (main_success sample_cwd no_faults sample_world
             sample_crop sample_normal sample_monthly);
      try reflexivity; apply (bool_decide_unpack _); vm_compute; reflexivity.
  - split; [reflexivity|]. split; [|reflexivity].
    apply no_close_in. simpl. unfold events_before_load, start_lines. simpl.
    by repeat (apply Forall_cons; split; [done|]).
Qed.

End MainClaims.

(** ** Further properties of [clean_data] *)

Section CleanExtras.
Implicit Types (h : heap) (d : DataFrame) (l r : loc).

(** X1. [clean_data] returns exactly when no two labels are the same once
    normalized: then the frame behind the reference is the cleaned frame;
    otherwise it raises the [AttributeError] of [.str] on a sub-frame. *)
Theorem clean_data_returns_iff_labels_distinct h l d :
  h !! l = Some d ->
  (NoDup ((fun name => Text.replace " " "_" (Text.lower name)) <$> columns d) ->
   clean_data l h = (Ok l, <[l := cleaned_frame d]> h)) /\
  (¬ NoDup ((fun name => Text.replace " " "_" (Text.lower name)) <$> columns d) ->
   exists d',
     clean_data l h
     = (Raise (AttributeError "'DataFrame' object has no attribute 'str'"),
        <[l := d']> h)).
Proof.
  intros Hl. split; intros Hc.
  - exact (clean_data_ok h l d Hl Hc).
  - exact (clean_data_dup h l d Hl Hc).
Qed.

Lemma clean_data_returns_iff_labels_distinct_witness :
  [sample_clash] !! 0 = Some sample_clash /\
  ¬ NoDup ((fun name => Text.replace " " "_" (Text.lower name)) <$> columns sample_clash) /\
  exists d',
    clean_data 0 [sample_clash]
    = (Raise (AttributeError "'DataFrame' object has no attribute 'str'"),
       <[0 := d']> [sample_clash]).
Proof.
  assert (¬ NoDup ((fun name => Text.replace " " "_" (Text.lower name))
                     <$> columns sample_clash)) as Hdup.
  { intros H. apply (bool_decide_pack _) in H. vm_compute in H. exact H. }
  split; [reflexivity|]. split; [exact Hdup|].
  exact (proj2 (clean_data_returns_iff_labels_distinct [sample_clash] 0 sample_clash
                  eq_refl) Hdup).
Defined.

(** X2. After [clean_data], a column that is not numeric is still not
    numeric, has as many entries, and each entry is the text of the entry
    that stood there, stripped: it is never missing and has no whitespace at
    either end. *)
Theorem text_column_after_clean h l d r h' :
  h !! l = Some d -> clean_data l h = (Ok r, h') ->
  exists d', h' !! r = Some d' /\
    forall i name s, d !! i = Some (name, s) -> numeric_dtype s = false ->
      exists s', d' !! i = Some (normalize_label name, s') /\
        numeric_dtype s' = false /\
        length (values s') = length (values s) /\
        forall j x, values s !! j = Some x ->
          exists o t, x = SObj o /\ t = Text.strip (py_str o) /\
            values s' !! j = Some (SObj (PyStr t)) /\
            isna (SObj (PyStr t)) = false /\
            Text.leading_space t = false /\ Text.trailing_space t = false.
Proof.
  intros Hl Hrun. destruct (clean_data_inv h l d r h' Hl Hrun) as (_ & -> & ->).
  exists (cleaned_frame d). split; [by eapply lookup_insert_heap|].
  intros i name s Hi Hnum. exists (cleaned_series s).
  split; [by rewrite lookup_cleaned, Hi|].
  split; [by rewrite numeric_dtype_cleaned|].
  split; [by rewrite values_cleaned, length_fmap|].
  intros j x Hj. destruct s as [v|xs]; [done|]. simpl in Hj.
  apply list_lookup_fmap_Some in Hj as (o & -> & Hj).
  exists o, (Text.strip (py_str o)). split; [done|]. split; [done|].
  split.
  { rewrite values_cleaned, list_lookup_fmap. simpl.
    by rewrite list_lookup_fmap, Hj. }
  split; [done|]. split; [apply strip_no_leading | apply strip_no_trailing].
Qed.

Lemma text_column_after_clean_witness :
  [sample_crop] !! 0 = Some sample_crop /\
  clean_data 0 [sample_crop] = (Ok 0, [cleaned_frame sample_crop]) /\
  exists d', [cleaned_frame sample_crop] !! 0 = Some d' /\
    forall i name s, sample_crop !! i = Some (name, s) -> numeric_dtype s = false ->
      exists s', d' !! i = Some (normalize_label name, s') /\
        numeric_dtype s' = false /\
        length (values s') = length (values s) /\
        forall j x, values s !! j = Some x ->
          exists o t, x = SObj o /\ t = Text.strip (py_str o) /\
            values s' !! j = Some (SObj (PyStr t)) /\
            isna (SObj (PyStr t)) = false /\
            Text.leading_space t = false /\ Text.trailing_space t = false.
Proof.
  split; [reflexivity|]. split; [reflexivity|].
  exact (text_column_after_clean [sample_crop] 0 sample_crop 0
           [cleaned_frame sample_crop] eq_refl eq_refl).
Defined.





End CleanExtras.

(** ** Further properties of [main] *)

Section MainExtras.
Implicit Types (w : world) (env : faults).

(** [main], the three inputs in place but one of them not cleanable: the
    events up to the exception. *)
Lemma main_unclean_trace cwd env w d1 d2 d3 :
  files w !! crop_data_path cwd = Some d1 ->
  files w !! normal_rainfall_path cwd = Some d2 ->
  files w !! monthly_rainfall_path cwd = Some d3 ->
  ¬ (cleanable d1 /\ cleanable d2 /\ cleanable d3) ->
  exists fr,
    main cwd env w
    = (Raise (AttributeError "'DataFrame' object has no attribute 'str'"),
       extend fr (events_before_transform cwd) w).
Proof.
  intros H1 H2 H3 Hnot. unfold main.
  erewrite bind_ok; [| apply print_eq].
  erewrite bind_ok; [| apply print_eq].
  erewrite bind_ok; [| apply extract_ok; [exact H1 | exact H2 | exact H3]].
  cbv beta iota.
  erewrite bind_ok; [| apply print_eq].
  rewrite !extend_extend.
  match goal with |- context [(transform ?a ?b ?c ≫= _) ?w1] =>
    assert (frames w1 !! a = Some d1) as Ha
      by (simpl; rewrite ?app_nil_r, lookup_app_r by lia; by rewrite Nat.sub_diag);
    assert (frames w1 !! b = Some d2) as Hb
      by (simpl; rewrite ?app_nil_r, lookup_app_r by lia;
          by replace (S _ - _) with 1 by lia);
    assert (frames w1 !! c = Some d3) as Hc
      by (simpl; rewrite ?app_nil_r, lookup_app_r by lia;
          by replace (S _ - _) with 2 by lia);
    destruct (transform_raises w1 a b c d1 d2 d3 Ha Hb Hc Hnot) as [fr E]
  end.
  erewrite bind_raise; [| exact E]. rewrite extend_extend.
  eexists. reflexivity.
Qed.

(** Extract, with the first missing file singled out. *)
Lemma extract_first_missing cwd w pre p post :
  input_paths cwd = pre ++ p :: post ->
  (forall q, q ∈ pre -> is_Some (files w !! q)) ->
  files w !! p = None ->
  exists raws,
    extract cwd w
    = (Ok None,
       extend raws ((EvRead <$> pre ++ [p]) ++
                    missing_file_lines (FileNotFoundError p)) w).
Proof.
  intros Hsplit Hpre Hp. unfold input_paths in Hsplit.
  unfold extract, try_except.
  destruct pre as [|a [|b [|c pre]]]; simpl in Hsplit; simplify_eq.
  - eexists. erewrite bind_raise; [| by apply read_csv_missing]. simpl.
    erewrite bind_ok; [| apply print_eq].
    erewrite bind_ok; [| apply print_eq].
    unfold mret, M_ret. rewrite !extend_extend. reflexivity.
  - destruct (Hpre (crop_data_path cwd)) as [d1 H1]; [left|]. eexists.
    erewrite bind_ok; [| by apply read_csv_found].
    erewrite bind_raise; [| by apply read_csv_missing]. simpl.
    erewrite bind_ok; [| apply print_eq].
    erewrite bind_ok; [| apply print_eq].
    unfold mret, M_ret. rewrite !extend_extend. reflexivity.
  - destruct (Hpre (crop_data_path cwd)) as [d1 H1]; [left|].
    destruct (Hpre (normal_rainfall_path cwd)) as [d2 H2]; [right; left|]. eexists.
    erewrite bind_ok; [| by apply read_csv_found].
    erewrite bind_ok; [| by apply read_csv_found].
    erewrite bind_raise; [| by apply read_csv_missing]. simpl.
    erewrite bind_ok; [| apply print_eq].
    erewrite bind_ok; [| apply print_eq].
    unfold mret, M_ret. rewrite !extend_extend. reflexivity.
  - exfalso. destruct pre; simplify_eq/=.
Qed.

(** X4. [main] reads the three files in order and stops at the first one
    that is missing: the files before it are read, the files after it are
    not, the two lines of the handler name that path, and [main] returns
    with the database as it was. *)
Theorem reading_stops_at_first_missing_file cwd env w pre p post :
  input_paths cwd = pre ++ p :: post ->
  (forall q, q ∈ pre -> is_Some (files w !! q)) ->
  files w !! p = None ->
  exists w', main cwd env w = (Ok tt, w') /\
    new_events w w'
    = start_lines ++ (EvRead <$> pre ++ [p]) ++
      missing_file_lines (FileNotFoundError p) /\
    database w' = database w /\ connection w' = connection w.
Proof.
  intros Hsplit Hpre Hp. unfold main.
  erewrite bind_ok; [| apply print_eq].
  erewrite bind_ok; [| apply print_eq].
  edestruct (extract_first_missing cwd) as [raws E]; [exact Hsplit | | |].
  3:{ erewrite bind_ok; [| exact E]. unfold mret, M_ret. rewrite !extend_extend.
      eexists. split; [reflexivity|]. by rewrite new_events_extend. }
  - exact Hpre.
  - exact Hp.
Qed.

Lemma reading_stops_at_first_missing_file_witness :
  input_paths sample_cwd
  = [crop_data_path sample_cwd] ++ normal_rainfall_path sample_cwd
      :: [monthly_rainfall_path sample_cwd] /\
  files sample_world_missing !! normal_rainfall_path sample_cwd = None /\
  exists w', main sample_cwd no_faults sample_world_missing = (Ok tt, w') /\
    new_events sample_world_missing w'
    = start_lines ++
      [EvRead (crop_data_path sample_cwd); EvRead (normal_rainfall_path sample_cwd)] ++
      missing_file_lines (FileNotFoundError (normal_rainfall_path sample_cwd)) /\
    database w' = database sample_world_missing /\
    connection w' = connection sample_world_missing.
Proof.
  split; [reflexivity|]. split; [reflexivity|].
  apply (reading_stops_at_first_missing_file sample_cwd no_faults sample_world_missing
           [crop_data_path sample_cwd] (normal_rainfall_path sample_cwd)
           [monthly_rainfall_path sample_cwd]); [reflexivity | | reflexivity].
  intros q Hq. apply list_elem_of_singleton in Hq as ->. by eexists.
Defined.


(** X5. When the three files are there, can be cleaned, and nothing fails
    in the database, [main] returns with each of the three tables holding
    the cleaned frame of its file, whatever the table held before; every
    other table and the input files are as they were; the database is opened
    once, after the three frames were cleaned, and the tables are written in
    the order crop, normal, monthly. *)
Theorem successful_run_loads_three_tables cwd env w d1 d2 d3 :
  files w !! crop_data_path cwd = Some d1 ->
  files w !! normal_rainfall_path cwd = Some d2 ->
  files w !! monthly_rainfall_path cwd = Some d3 ->
  cleanable d1 -> cleanable d2 -> cleanable d3 ->
  connect_fault env = None ->
  (forall name, name ∈ table_names -> write_fault env name = None) ->
  exists w' tables, main cwd env w = (Ok tt, w') /\
    database w' = Some tables /\
    tables !! "crop_production" = Some (cleaned_frame d1) /\
    tables !! "normal_rainfall" = Some (cleaned_frame d2) /\
    tables !! "monthly_rainfall" = Some (cleaned_frame d3) /\
    (forall name, name ∉ table_names ->
       tables !! name = default ∅ (database w) !! name) /\
    files w' = files w /\
    new_events w w' = events_before_load cwd ++ events_of_load cwd.
Proof.
  intros H1 H2 H3 Hc1 Hc2 Hc3 Hconn Hw.
  eexists _, _. split; [by apply (main_success cwd env w d1 d2 d3)|].
  split; [reflexivity|]. unfold new_events. simpl.
  split; [by rewrite lookup_insert_ne, lookup_insert_ne, lookup_insert_eq|].
  split; [by rewrite lookup_insert_ne, lookup_insert_eq|].
  split; [by rewrite lookup_insert_eq|].
  split; [|split; [done | by rewrite drop_app_length]].
  intros name Hname. unfold table_names in Hname.
  rewrite !not_elem_of_cons in Hname. destruct Hname as (? & ? & ? & _).
  by rewrite !lookup_insert_ne.
Qed.

Lemma successful_run_loads_three_tables_witness :
  files sample_world_old !! crop_data_path sample_cwd = Some sample_crop /\
  files sample_world_old !! normal_rainfall_path sample_cwd = Some sample_normal /\
  files sample_world_old !! monthly_rainfall_path sample_cwd = Some sample_monthly /\
  cleanable sample_crop /\ cleanable sample_normal /\ cleanable sample_monthly /\
  connect_fault no_faults = None /\
  exists w' tables, main sample_cwd no_faults sample_world_old = (Ok tt, w') /\
    database w' = Some tables /\
    tables !! "crop_production" = Some (cleaned_frame sample_crop) /\
    tables !! "normal_rainfall" = Some (cleaned_frame sample_normal) /\
    tables !! "monthly_rainfall" = Some (cleaned_frame sample_monthly) /\
    (forall name, name ∉ table_names ->
       tables !! name = default ∅ (database sample_world_old) !! name) /\
    files w' = files sample_world_old /\
    new_events sample_world_old w'
    = events_before_load sample_cwd ++ events_of_load sample_cwd.
Proof.
  assert (cleanable sample_crop) as Hc1
    by (apply (bool_decide_unpack _); vm_compute; reflexivity).
  assert (cleanable sample_normal) as Hc2
    by (apply (bool_decide_unpack _); vm_compute; reflexivity).
  assert (cleanable sample_monthly) as Hc3
    by (apply (bool_decide_unpack _); vm_compute; reflexivity).
  do 7 (split; [first [reflexivity | assumption]|]).
  apply (successful_run_loads_three_tables sample_cwd no_faults sample_world_old
           sample_crop sample_normal sample_monthly);
    first [reflexivity | assumption].
Defined.

(** X6. When the database cannot be opened, no table is written: the
    handler prints the error and [main] returns without the closing line,
    with the database and the connection as they were. *)
Theorem connect_failure_writes_nothing cwd env w d1 d2 d3 msg :
  files w !! crop_data_path cwd = Some d1 ->
  files w !! normal_rainfall_path cwd = Some d2 ->
  files w !! monthly_rainfall_path cwd = Some d3 ->
  cleanable d1 -> cleanable d2 -> cleanable d3 ->
  connect_fault env = Some msg ->
  exists w', main cwd env w = (Ok tt, w') /\
    database w' = database w /\ connection w' = connection w /\
    new_events w w'
    = events_before_load cwd ++
      [EvPrint ("🔥Whoops, something went wrong while baking. Error: " +:+ msg)].
Proof.
  intros H1 H2 H3 Hc1 Hc2 Hc3 Hconn.
  eexists. split; [by apply (main_no_connection cwd env w d1 d2 d3 msg)|].
  split; [done|]. split; [done|]. by rewrite new_events_extend.
Qed.

Lemma connect_failure_writes_nothing_witness :
  files sample_world_old !! crop_data_path sample_cwd = Some sample_crop /\
  files sample_world_old !! normal_rainfall_path sample_cwd = Some sample_normal /\
  files sample_world_old !! monthly_rainfall_path sample_cwd = Some sample_monthly /\
  cleanable sample_crop /\ cleanable sample_normal /\ cleanable sample_monthly /\
  connect_fault sample_faults_connect = Some "unable to open database file" /\
  exists w', main sample_cwd sample_faults_connect sample_world_old = (Ok tt, w') /\
    database w' = database sample_world_old /\
    connection w' = connection sample_world_old /\
    new_events sample_world_old w'
    = events_before_load sample_cwd ++
      [EvPrint ("🔥Whoops, something went wrong while baking. Error: "
                +:+ "unable to open database file")].
Proof.
  assert (cleanable sample_crop) as Hc1
    by (apply (bool_decide_unpack _); vm_compute; reflexivity).
  assert (cleanable sample_normal) as Hc2
    by (apply (bool_decide_unpack _); vm_compute; reflexivity).
  assert (cleanable sample_monthly) as Hc3
    by (apply (bool_decide_unpack _); vm_compute; reflexivity).
  do 7 (split; [first [reflexivity | assumption]|]).
  apply (connect_failure_writes_nothing sample_cwd sample_faults_connect
           sample_world_old sample_crop sample_normal sample_monthly);
    first [reflexivity | assumption].
Defined.

(** X7. When the headers of one of the files collide once normalized, the
    [AttributeError] of [clean_data] is not caught: it leaves [main] during
    the Transform step, after the line of Step 2 and before the database is
    opened; the database, the connection and the files are as they were. *)
Theorem colliding_headers_abort_main cwd env w d1 d2 d3 :
  files w !! crop_data_path cwd = Some d1 ->
  files w !! normal_rainfall_path cwd = Some d2 ->
  files w !! monthly_rainfall_path cwd = Some d3 ->
  ¬ (cleanable d1 /\ cleanable d2 /\ cleanable d3) ->
  exists w',
    main cwd env w
    = (Raise (AttributeError "'DataFrame' object has no attribute 'str'"), w') /\
    database w' = database w /\ connection w' = connection w /\
    files w' = files w /\
    new_events w w' = events_before_transform cwd.
Proof.
  intros H1 H2 H3 Hnot.
  destruct (main_unclean_trace cwd env w d1 d2 d3 H1 H2 H3 Hnot) as [fr E].
  eexists. split; [exact E|]. split; [done|]. split; [done|]. split; [done|].
  by rewrite new_events_extend.
Qed.

Lemma colliding_headers_abort_main_witness :
  files sample_world_clash !! crop_data_path sample_cwd = Some sample_crop /\
  files sample_world_clash !! normal_rainfall_path sample_cwd = Some sample_normal /\
  files sample_world_clash !! monthly_rainfall_path sample_cwd = Some sample_clash /\
  ¬ (cleanable sample_crop /\ cleanable sample_normal /\ cleanable sample_clash) /\
  exists w',
    main sample_cwd no_faults sample_world_clash
    = (Raise (AttributeError "'DataFrame' object has no attribute 'str'"), w') /\
    database w' = database sample_world_clash /\
    connection w' = connection sample_world_clash /\
    files w' = files sample_world_clash /\
    new_events sample_world_clash w' = events_before_transform sample_cwd.
Proof.
  assert (¬ (cleanable sample_crop /\ cleanable sample_normal /\ cleanable sample_clash))
    as Hnot.
  { intros (_ & _ & H). apply (bool_decide_pack _) in H. vm_compute in H. exact H. }
  do 3 (split; [reflexivity|]). split; [exact Hnot|].
  exact (colliding_headers_abort_main sample_cwd no_faults sample_world_clash
           sample_crop sample_normal sample_clash eq_refl eq_refl eq_refl Hnot).
Defined.


(** Over input files that are missing or well formed, a run of [main] is
    one of five: an input is missing; a frame cannot be cleaned; the
    database cannot be opened; the write of a table fails; or the three
    tables are loaded. *)
Lemma main_cases cwd env w :
  (exists raws reads p,
     main cwd env w
     = (Ok tt,
        extend raws (start_lines ++ reads ++
                     missing_file_lines (FileNotFoundError p)) w) /\
     Forall (fun e => exists q, e = EvRead q) reads) \/
  (exists fr,
     main cwd env w
     = (Raise (AttributeError "'DataFrame' object has no attribute 'str'"),
        extend fr (events_before_transform cwd) w)) \/
  (exists fr msg,
     main cwd env w
     = (Ok tt,
        extend fr (events_before_load cwd ++
                   [load_error_line (OperationalError msg)]) w)) \/
  (exists fr tables done name f,
     main cwd env w
     = (Ok tt,
        {| frames := frames w ++ fr; files := files w; database := Some tables;
           connection := Connected;
           trace := trace w ++ events_before_load cwd ++
                    [EvConnect (db_path cwd)] ++ (EvWrite <$> done ++ [name]) ++
                    [EvRollback;
                     load_error_line (OperationalError (wf_message f))] |})) \/
  (exists d1 d2 d3,
     files w !! crop_data_path cwd = Some d1 /\
     files w !! normal_rainfall_path cwd = Some d2 /\
     files w !! monthly_rainfall_path cwd = Some d3 /\
     main cwd env w
     = (Ok tt,
        {| frames := frames w ++
             [d1; d2; d3; cleaned_frame d1; cleaned_frame d2; cleaned_frame d3];
           files := files w;
           database := Some (<["monthly_rainfall" := cleaned_frame d3]>
                            (<["normal_rainfall" := cleaned_frame d2]>
                            (<["crop_production" := cleaned_frame d1]>
                               (default ∅ (database w)))));
           connection := Connected;
           trace := trace w ++ events_before_load cwd ++ events_of_load cwd |})).
Proof.
  assert ((exists p, p ∈ input_paths cwd /\ files w !! p = None) ->
    exists raws reads p,
      main cwd env w
      = (Ok tt,
         extend raws (start_lines ++ reads ++
                      missing_file_lines (FileNotFoundError p)) w) /\
      Forall (fun e => exists q, e = EvRead q) reads) as Hmissing.
  { intros Hmiss.
    destruct (main_missing cwd env w Hmiss) as (raws & reads & p & E & _ & _ & _ & Hr).
    by exists raws, reads, p. }
  destruct (files w !! crop_data_path cwd) as [d1|] eqn:H1;
    [destruct (files w !! normal_rainfall_path cwd) as [d2|] eqn:H2;
      [destruct (files w !! monthly_rainfall_path cwd) as [d3|] eqn:H3|]|].
  2:{ left. apply Hmissing. exists (monthly_rainfall_path cwd).
      split; [right; right; left | done]. }
  2:{ left. apply Hmissing. exists (normal_rainfall_path cwd).
      split; [right; left | done]. }
  2:{ left. apply Hmissing. exists (crop_data_path cwd). split; [left | done]. }
  destruct (decide (cleanable d1 /\ cleanable d2 /\ cleanable d3))
    as [(Hc1 & Hc2 & Hc3)|Hnot].
  2:{ right; left. by apply (main_unclean_trace cwd env w d1 d2 d3). }
  destruct (connect_fault env) as [msg|] eqn:Hconn.
  { right; right; left. eexists _, msg.
    by apply (main_no_connection cwd env w d1 d2 d3 msg). }
  destruct (first_write_fault env)
    as [Hnone|(dn & name & rest & f & Hsplit & Hdone & Hf)].
  - do 4 right. exists d1, d2, d3. do 3 (split; [done|]).
    by apply (main_success cwd env w d1 d2 d3).
  - do 3 right; left.
    destruct (main_write_failure cwd env w d1 d2 d3 dn name rest f)
      as (tables & E & _); [done..|].
    by eexists _, tables, dn, name, f.
Qed.

(** X8. In every run, [main] leaves the input files as they are, and every
    frame object that was on the heap before the run is still there
    unchanged: the run only adds objects. *)
Theorem main_keeps_files_and_old_frames cwd env w :
  let w' := (main cwd env w).2 in
  files w' = files w /\ take (length (frames w)) (frames w') = frames w.
Proof.
  intros w'. unfold w'. clear w'.
  destruct (main_cases cwd env w)
    as [(raws & reads & p & E & _)|[(fr & E)|[(fr & msg & E)
       |[(fr & tables & dn & name & f & E)|(d1 & d2 & d3 & _ & _ & _ & E)]]]];
    rewrite E; simpl; (split; [done | by rewrite take_app_length]).
Qed.

Ltac split_events Hin :=
  unfold load_error_line, missing_file_lines, start_lines, events_before_load,
    events_before_transform in Hin;
  simpl in Hin;
  repeat first
    [ apply elem_of_cons in Hin as [Hin|Hin]; [discriminate Hin|]
    | apply elem_of_app in Hin as [Hin|Hin] ];
  try (by apply elem_of_nil in Hin);
  try (by apply list_elem_of_fmap in Hin as (? & ? & _)).

(** X9. The closing line "--- ETL Pipeline Complete ..." is printed only by
    a run that returns with the three tables loaded: the three files were
    there and each table holds the cleaned frame of its file. *)
Theorem closing_line_only_after_load cwd env w r w' :
  main cwd env w = (r, w') ->
  EvPrint "--- ETL Pipeline Complete. Bon Appétit! ---" ∈ new_events w w' ->
  r = Ok tt /\
  exists d1 d2 d3 tables,
    files w !! crop_data_path cwd = Some d1 /\
    files w !! normal_rainfall_path cwd = Some d2 /\
    files w !! monthly_rainfall_path cwd = Some d3 /\
    database w' = Some tables /\
    tables !! "crop_production" = Some (cleaned_frame d1) /\
    tables !! "normal_rainfall" = Some (cleaned_frame d2) /\
    tables !! "monthly_rainfall" = Some (cleaned_frame d3).
Proof.
  intros Hrun Hin.
  destruct (main_cases cwd env w)
    as [(raws & reads & p & E & Hr)|[(fr & E)|[(fr & msg & E)
       |[(fr & tables & dn & name & f & E)|(d1 & d2 & d3 & H1 & H2 & H3 & E)]]]];
    rewrite E in Hrun; injection Hrun as <- <-.
  - exfalso. rewrite new_events_extend in Hin. split_events Hin.
    by apply (proj1 (Forall_forall _ _) Hr) in Hin as [q Hq].
  - exfalso. rewrite new_events_extend in Hin. split_events Hin.
  - exfalso. rewrite new_events_extend in Hin. split_events Hin.
  - exfalso. unfold new_events in Hin. simpl in Hin.
    rewrite drop_app_length in Hin. split_events Hin.
  - split; [done|]. eexists d1, d2, d3, _. do 3 (split; [done|]).
    split; [reflexivity|].
    split; [by rewrite lookup_insert_ne, lookup_insert_ne, lookup_insert_eq|].
    split; [by rewrite lookup_insert_ne, lookup_insert_eq|].
    by rewrite lookup_insert_eq.
Qed.

Lemma closing_line_only_after_load_witness :
  exists w', main sample_cwd no_faults sample_world = (Ok tt, w') /\
    EvPrint "--- ETL Pipeline Complete. Bon Appétit! ---"
      ∈ new_events sample_world w' /\
    exists d1 d2 d3 tables,
      files sample_world !! crop_data_path sample_cwd = Some d1 /\
      files sample_world !! normal_rainfall_path sample_cwd = Some d2 /\
      files sample_world !! monthly_rainfall_path sample_cwd = Some d3 /\
      database w' = Some tables /\
      tables !! "crop_production" = Some (cleaned_frame d1) /\
      tables !! "normal_rainfall" = Some (cleaned_frame d2) /\
      tables !! "monthly_rainfall" = Some (cleaned_frame d3).
Proof.
  assert (cleanable sample_crop) as Hc1
    by (apply (bool_decide_unpack _); vm_compute; reflexivity).
  assert (cleanable sample_normal) as Hc2
    by (apply (bool_decide_unpack _); vm_compute; reflexivity).
  assert (cleanable sample_monthly) as Hc3
    by (apply (bool_decide_unpack _); vm_compute; reflexivity).
  pose proof (main_success sample_cwd no_faults sample_world
                sample_crop sample_normal sample_monthly
                eq_refl eq_refl eq_refl Hc1 Hc2 Hc3 eq_refl (fun _ _ => eq_refl))
    as Hrun.
  match type of Hrun with _ = (_, ?w1) =>
    assert (EvPrint "--- ETL Pipeline Complete. Bon Appétit! ---"
              ∈ new_events sample_world w1) as Hin
  end.
  { unfold new_events, events_before_load, start_lines. simpl.
    repeat first [left | right]. }
  eexists. split; [exact Hrun|]. split; [exact Hin|].
  exact (proj2 (closing_line_only_after_load sample_cwd no_faults sample_world
                  (Ok tt) _ Hrun Hin)).
Defined.

End MainExtras.

(** ** Properties of the module-level paths *)

Section PathExtras.

Lemma append_assoc_r (a b c : string) : (a +:+ b) +:+ c = a +:+ b +:+ c.
Proof.
  induction a as [|x a IH]; [done|].
  change (String x ((a +:+ b) +:+ c) = String x (a +:+ b +:+ c)). by rewrite IH.
Qed.

Lemma last_char_app (s t : string) :
  t ≠ "" -> Text.last_char (s +:+ t) = Text.last_char t.
Proof.
  intros Ht. induction s as [|x s IH]; [done|].
  change (Text.last_char (String x (s +:+ t)) = Text.last_char t).
  simpl. rewrite IH. destruct t as [|y t]; [done|]. simpl.
  by destruct (Text.last_char t).
Qed.

(** Joining a component that does not start with the separator to a path
    that does not end with it puts one separator in between. *)
Lemma path_join2_plain (a b : string) c d :
  Text.last_char a = Some c -> c ≠ "/"%char ->
  Text.first_char b = Some d -> d ≠ "/"%char ->
  path_join2 a b = a +:+ "/" +:+ b.
Proof.
  intros Ha Hc Hb Hd. unfold path_join2. rewrite Ha, Hb.
  destruct a as [|x a]; [done|].
  destruct d as [[] [] [] [] [] [] [] []]; try done;
    destruct c as [[] [] [] [] [] [] [] []]; done.
Qed.

(** The directory every path of the script lies under: [cwd] joined with
    "data". It ends with "data". *)
Lemma data_directory cwd :
  exists x, path_join2 cwd "data" = x +:+ "data".
Proof.
  unfold path_join2. simpl.
  destruct (Text.last_char cwd) as [c|] eqn:E.
  - destruct c as [[] [] [] [] [] [] [] []];
      first [by exists cwd | exists (cwd +:+ "/"); by rewrite append_assoc_r
            | idtac];
      destruct cwd; first [done | exists (String a cwd +:+ "/"); by rewrite append_assoc_r].
  - destruct cwd as [|a cwd]; [by exists ""|].
    simpl in E. by destruct (Text.last_char cwd).
Qed.


Lemma join_component (a t b : string) c d :
  t ≠ "" -> Text.last_char t = Some c -> c ≠ "/"%char ->
  Text.first_char b = Some d -> d ≠ "/"%char ->
  path_join2 (a +:+ t) b = a +:+ t +:+ "/" +:+ b.
Proof.
  intros Ht Hl Hc Hb Hd.
  rewrite (path_join2_plain (a +:+ t) b c d); [|by rewrite last_char_app|done..].
  by rewrite append_assoc_r.
Qed.

(** X11. Whatever the working directory, the database and the three CSV
    files are four different paths under the same directory, [cwd] joined
    with "data": no input file is the database file, and no two inputs are
    the same file. *)
Theorem paths_distinct_under_data cwd :
  let base := path_join2 cwd "data" in
  db_path cwd = base +:+ "/agriculture.db" /\
  crop_data_path cwd = base +:+ "/csv data/raw/area_production_yield_data.csv" /\
  normal_rainfall_path cwd = base +:+ "/csv data/raw/normal_rainfall_data.csv" /\
  monthly_rainfall_path cwd = base +:+ "/csv data/raw/monthly_rainfall_data.csv" /\
  NoDup [db_path cwd; crop_data_path cwd; normal_rainfall_path cwd;
         monthly_rainfall_path cwd].
Proof.
  intros base. destruct (data_directory cwd) as [x Hx].
  assert (db_path cwd = base +:+ "/agriculture.db") as E0.
  { unfold db_path, os_path_join, base. cbn [foldl]. rewrite Hx.
    rewrite (join_component x "data" _ "a" "a") by done.
    by rewrite append_assoc_r. }
  assert (forall file d, Text.first_char file = Some d -> d ≠ "/"%char ->
            os_path_join cwd ["data"; "csv data"; "raw"; file]
            = base +:+ "/csv data/raw/" +:+ file) as Ecsv.
  { intros file d Hf Hd. unfold os_path_join, base. cbn [foldl]. rewrite Hx.
    rewrite (join_component x "data" "csv data" "a" "c") by done.
    rewrite (join_component x _ "raw" "a" "r") by done.
    rewrite (join_component x _ file "w" d) by done.
    by rewrite !append_assoc_r. }
  assert (crop_data_path cwd
          = base +:+ "/csv data/raw/area_production_yield_data.csv") as E1
    by (unfold crop_data_path; by rewrite (Ecsv _ "a"%char)).
  assert (normal_rainfall_path cwd
          = base +:+ "/csv data/raw/normal_rainfall_data.csv") as E2
    by (unfold normal_rainfall_path; by rewrite (Ecsv _ "n"%char)).
  assert (monthly_rainfall_path cwd
          = base +:+ "/csv data/raw/monthly_rainfall_data.csv") as E3
    by (unfold monthly_rainfall_path; by rewrite (Ecsv _ "m"%char)).
  do 4 (split; [done|]). rewrite E0, E1, E2, E3.
  repeat (apply NoDup_cons; split);
    [..|apply NoDup_nil_2];
    intros Hin;
    repeat (apply elem_of_cons in Hin as [Hin|Hin];
            [by apply (inj (String.app base)) in Hin|]);
    by apply elem_of_nil in Hin.
Qed.

End PathExtras.
